(** * Mindful Echo: the chat session of [main.py]

    A shallow embedding of the Streamlit script [main.py]: the session
    state it keeps between runs, the LangChain conversation chain it
    drives, and one top-to-bottom run of the script for one user
    interaction.  The theorems at the end relate the embedding to the
    properties stated for the transcript, the prompt assembly, the error
    path and the reset button. *)

From Stdlib Require Import String List Bool Ascii Arith Lia.
Import ListNotations.
Local Open Scope string_scope.
Local Open Scope list_scope.

(** ** Python values used by the script *)

(** Line feed and double quote, for the text of multi-line literals. *)
Definition nl : string := String (ascii_of_nat 10) EmptyString.
Definition dq : string := String (ascii_of_nat 34) EmptyString.

(** Truthiness of an [Optional[str]]: [None] and the empty string are
    falsy ([if user_input:], [if not api_key:]). *)
Definition truthy (o : option string) : bool :=
  match o with
  | None => false
  | Some s => negb (s =? EmptyString)
  end.

(** The dicts [{"role": ..., "content": ...}] kept in
    [st.session_state.messages] and sent to the chat-completion API. *)
Record Turn : Type := mkTurn { role : string; content : string }.

(** [langchain_core.messages]: the message classes the prompt template
    and the buffer memory produce. *)
Inductive BaseMessage : Type :=
| SystemMessage (text : string)
| HumanMessage (text : string)
| AIMessage (text : string).

(** ** Constants (lines 24-56) *)

Definition DEFAULT_MODEL : string := "llama3-8b-8192".

Definition SYSTEM_PROMPT : string :=
  String.concat nl
    [ EmptyString;
      "You are 'Mindful Echo', a supportive and empathetic AI companion designed for mental well-being conversations.";
      "Your goal is to listen actively, offer encouragement, and provide a safe, non-judgmental space for users to express their feelings.";
      EmptyString;
      "**Guidelines:**";
      "*   **Be Kind and Empathetic:** Respond with warmth, understanding, and compassion. Validate the user's feelings.";
      "*   **Listen Actively:** Pay close attention to what the user shares. Ask clarifying questions gently if needed.";
      "*   **Be Non-Judgmental:** Create a safe space where the user feels comfortable sharing without fear of criticism.";
      "*   **Offer General Support & Encouragement:** Provide positive affirmations and gentle encouragement. You can suggest general, widely accepted well-being practices (like mindfulness, deep breathing, taking a walk) if appropriate, but frame them as suggestions, not directives.";
      "*   **Maintain Neutrality:** Avoid giving personal opinions, specific advice (especially medical, financial, or legal), or making decisions for the user.";
      "*   **Do Not Diagnose:** You are NOT a therapist or medical professional. Do not attempt to diagnose any condition.";
      ("*   **Prioritize Safety:** If a user expresses thoughts of harming themselves or others, gently guide them towards professional help immediately. Provide contact information for crisis hotlines or emergency services (you can state: " ++ dq ++ "If you are in immediate danger, please contact your local emergency services or a crisis hotline like [mention a relevant hotline, e.g., the National Suicide Prevention Lifeline at 988 in the US]." ++ dq ++ ").")%string;
      "*   **Manage Limitations:** Remind the user that you are an AI and cannot replace professional human support. If the conversation becomes too complex or requires professional expertise, gently suggest seeking help from a qualified therapist, counselor, or doctor.";
      "*   **Use Conversational History:** Remember previous parts of the conversation to provide relevant and coherent responses.";
      EmptyString;
      "**Example Interaction Start:**";
      "User: I've been feeling really down lately.";
      "Mindful Echo: I'm really sorry to hear you've been feeling down. It sounds tough. I'm here to listen if you'd like to share more about what's been going on. Remember, your feelings are valid.";
      EmptyString;
      "Remember your core purpose: To be a supportive listener and a beacon of gentle encouragement.";
      EmptyString ].

(** [prompt_template.format_messages(chat_history=..., input=...)]: the
    system text, the placeholder's messages, then the human template
    ["{input}"] filled with the input.  [SYSTEM_PROMPT] is itself a
    template, see [SYSTEM_PROMPT_has_no_placeholder]. *)
Definition prompt_template (chat_history : list BaseMessage) (input : string)
  : list BaseMessage :=
  [SystemMessage SYSTEM_PROMPT] ++ chat_history ++ [HumanMessage input].

(** [langchain_groq]: the role each message class is sent under. *)
Definition convert_message_to_dict (m : BaseMessage) : Turn :=
  match m with
  | SystemMessage t => mkTurn "system" t
  | HumanMessage t => mkTurn "user" t
  | AIMessage t => mkTurn "assistant" t
  end.

(** ** The inference endpoint *)

(** What one chat-completion call does: it answers with a text or it
    raises (network failure, rejected key, ...). *)
Inductive Completion : Type :=
| Generated (text : string)
| Failed (exn : string).

Definition Gateway : Type := list Turn -> Completion.

(** ** The conversation chain (lines 60-89) *)

(** [ConversationChain(llm=ChatGroq(...), memory=ConversationBufferMemory(...),
    prompt=prompt_template)].  [chat_memory] is the buffer behind the
    memory key [chat_history]. *)
Record ConversationChain : Type := mkChain {
  groq_api_key_of : string;
  model_name : string;
  chat_memory : list BaseMessage
}.

(** [ConversationBufferMemory.save_context]: one human and one AI message
    are added at the end of the buffer. *)
Definition save_context (c : ConversationChain) (input output : string)
  : ConversationChain :=
  mkChain (groq_api_key_of c) (model_name c)
          (chat_memory c ++ [HumanMessage input; AIMessage output]).

(** The message list a call of the chain sends to the endpoint. *)
Definition chain_request (c : ConversationChain) (input : string) : list Turn :=
  map convert_message_to_dict (prompt_template (chat_memory c) input).

Arguments chain_request : simpl never.

(** ** Session state, effects and the script monad *)

(** [st.session_state]: a key is absent until the script sets it. *)
Record SessionState : Type := mkSession {
  conversation_chain : option ConversationChain;
  messages : option (list Turn)
}.

Definition empty_session : SessionState := mkSession None None.

(** What a run does that is visible outside the session state. *)
Inductive Effect : Type :=
| PageHeader                                   (* lines 93-110 *)
| StError (msg : string)                       (* st.error *)
| ChatMessage (who avatar body : string)       (* st.chat_message + st.markdown *)
| ChatInput                                    (* st.chat_input *)
| Spinner                                      (* st.spinner *)
| SidebarButton                                (* st.sidebar.button *)
| SidebarInfo (msg : string)                   (* st.sidebar.info *)
| GatewayCall (model : string) (request : list Turn).
                                               (* one call of the chat model *)

(** How a piece of the script ends: normally, with an [Exception], or
    with one of Streamlit's control-flow exceptions ([st.stop], [st.rerun]),
    which derive from [BaseException] and pass through [except Exception]. *)
Inductive Outcome (A : Type) : Type :=
| Normal (a : A)
| Raised (exn : string)
| Stopped
| Rerun.

Arguments Normal {A} a.
Arguments Raised {A} exn.
Arguments Stopped {A}.
Arguments Rerun {A}.

Record World : Type := mkWorld {
  session : SessionState;
  trace : list Effect
}.

Definition Script (A : Type) : Type := World -> Outcome A * World.

Definition ret {A} (a : A) : Script A := fun w => (Normal a, w).

Definition bind {A B} (m : Script A) (k : A -> Script B) : Script B :=
  fun w =>
    match m w with
    | (Normal a, w') => k a w'
    | (Raised e, w') => (Raised e, w')
    | (Stopped, w') => (Stopped, w')
    | (Rerun, w') => (Rerun, w')
    end.

Notation "x <- m ;; k" := (bind m (fun x => k))
  (at level 61, m at next level, right associativity).
Notation "m ;; k" := (bind m (fun _ => k))
  (at level 61, right associativity).

Definition raise {A} (exn : string) : Script A := fun w => (Raised exn, w).
Definition st_stop {A} : Script A := fun w => (Stopped, w).
Definition st_rerun {A} : Script A := fun w => (Rerun, w).

(** [try: body / except Exception as e: handler e]. *)
Definition try_except {A} (body : Script A) (handler : string -> Script A)
  : Script A :=
  fun w =>
    match body w with
    | (Raised e, w') => handler e w'
    | r => r
    end.

Definition emit (e : Effect) : Script unit :=
  fun w => (Normal tt, mkWorld (session w) (trace w ++ [e])).

Definition get_session : Script SessionState :=
  fun w => (Normal (session w), w).

Definition put_session (s : SessionState) : Script unit :=
  fun w => (Normal tt, mkWorld s (trace w)).

Definition when (b : bool) (m : Script unit) : Script unit :=
  if b then m else ret tt.

(** [for x in xs: body x]. *)
Fixpoint for_each {A} (xs : list A) (body : A -> Script unit) : Script unit :=
  match xs with
  | [] => ret tt
  | x :: rest => body x ;; for_each rest body
  end.

(** Reading a key of [st.session_state] that is absent raises. *)
Definition get_chain : Script ConversationChain :=
  s <- get_session ;;
  match conversation_chain s with
  | Some c => ret c
  | None => raise "AttributeError: st.session_state has no attribute conversation_chain"
  end.

Definition get_messages : Script (list Turn) :=
  s <- get_session ;;
  match messages s with
  | Some m => ret m
  | None => raise "AttributeError: st.session_state has no attribute messages"
  end.

Definition set_chain (c : ConversationChain) : Script unit :=
  s <- get_session ;; put_session (mkSession (Some c) (messages s)).

Definition set_messages (m : list Turn) : Script unit :=
  s <- get_session ;; put_session (mkSession (conversation_chain s) (Some m)).

(** [st.session_state.messages.append(t)]. *)
Definition append_message (t : Turn) : Script unit :=
  m <- get_messages ;; set_messages (m ++ [t]).

(** ** Configuration (lines 12-21) *)

(** What [st.secrets["GROQ_API_KEY"]] does: it gives the key, it raises
    [KeyError] (the secrets hold no such key), or it raises another
    exception (no secrets file is found: a [FileNotFoundError], which is
    not a [KeyError]). *)
Inductive SecretsLookup : Type :=
| SecretFound (key : string)
| SecretKeyError
| SecretsError (exn : string).

(** What the process finds around it: [os.getenv("GROQ_API_KEY")] once
    [load_dotenv] has run, the lookup in [st.secrets], and whether
    building the [ChatGroq] client for a key raises. *)
Record Env : Type := mkEnv {
  getenv_key : option string;
  secrets_lookup : SecretsLookup;
  chatgroq_raises : string -> option string
}.

(** The key the secrets give, when they give one. *)
Definition secrets_key (env : Env) : option string :=
  match secrets_lookup env with
  | SecretFound key => Some key
  | SecretKeyError => None
  | SecretsError _ => None
  end.

(** Lines 13-21: the key of the environment, or, when that is missing or
    empty, the key of the secrets; [except KeyError] turns a missing
    entry into [None] and lets any other exception of the lookup
    through. *)
Definition load_groq_api_key (env : Env) : Script (option string) :=
  let groq_api_key := getenv_key env in
  if negb (truthy groq_api_key) then
    match secrets_lookup env with
    | SecretFound key => ret (Some key)
    | SecretKeyError => ret None
    | SecretsError exn => raise exn
    end
  else ret groq_api_key.

(** The module-level [groq_api_key], whenever lines 13-21 end normally
    (see [load_groq_api_key_spec]). *)
Definition groq_api_key (env : Env) : option string :=
  if truthy (getenv_key env) then getenv_key env else secrets_key env.

(** The exception that leaves line 19, when one does. *)
Definition key_lookup_error (env : Env) : option string :=
  if truthy (getenv_key env) then None
  else match secrets_lookup env with
       | SecretsError exn => Some exn
       | _ => None
       end.

(** ** The chain *)

Definition missing_key_error : string :=
  "Groq API key is missing. Please set it in .env or Streamlit secrets.".

(** The text of a key that passed the test [if not api_key]. *)
Definition key_text (api_key : option string) : string :=
  match api_key with
  | Some key => key
  | None => EmptyString
  end.

(** [ChatGroq(temperature=0.7, groq_api_key=api_key, model_name=...)]:
    the client is built, or the constructor raises. *)
Definition ChatGroq (env : Env) (api_key : string) : Script string :=
  match chatgroq_raises env api_key with
  | Some e => raise e
  | None => ret api_key
  end.

(** [initialize_chain(api_key, model_name=DEFAULT_MODEL)]: the chain
    starts with an empty [ConversationBufferMemory]. *)
Definition initialize_chain (env : Env) (api_key : option string)
  : Script ConversationChain :=
  when (negb (truthy api_key))
       (emit (StError missing_key_error) ;; st_stop) ;;
  try_except
    (llm <- ChatGroq env (key_text api_key) ;;
     ret (mkChain llm DEFAULT_MODEL []))
    (fun e =>
       emit (StError ("Error initializing LangChain: " ++ e)%string) ;;
       st_stop).

(** [Chain.invoke({"input": input})] on the chain of the session: the
    memory is loaded, the prompt is formatted and the chat model is
    called with it; the exchange is saved to the memory only after the
    model has answered, and an exception of the call propagates to the
    caller.  [GatewayCall] records this one call of the chat model with
    its message list, and [gw] gives how the call ends: the [ChatGroq]
    client is built without [max_retries], so it may send the same
    HTTP request again (twice by default) before it answers or raises;
    these attempts are inside the call and are not counted one by one.
    The value is the entry [response] of the dict the chain returns,
    which is always present, so that [response.get('response', ...)]
    never takes its default. *)
Definition invoke (gw : Gateway) (input : string) : Script string :=
  c <- get_chain ;;
  emit (GatewayCall (model_name c) (chain_request c input)) ;;
  match gw (chain_request c input) with
  | Generated text => set_chain (save_context c input text) ;; ret text
  | Failed exn => raise exn
  end.

(** ** One run of the script *)

(** The widget values of a run and the behaviour of the endpoint while
    it lasts. *)
Record Interaction : Type := mkInteraction {
  user_input : option string;
  clear_clicked : bool;
  gateway : Gateway
}.

Definition greeting : Turn :=
  mkTurn "assistant"
    "Hello! I'm Mindful Echo. How are you feeling today? I'm here to listen without judgment.".

Definition cleared_greeting : Turn :=
  mkTurn "assistant" "Chat history cleared. How can I help you now?".

Definition error_message : string :=
  "Sorry, I encountered a problem processing your request. Please try again.".

Definition user_avatar : string := "👤".
Definition assistant_avatar : string := "🧠".

(** Lines 113-121: session state initialisation. *)
Definition init_session_state (env : Env) : Script unit :=
  s <- get_session ;;
  when (match conversation_chain s with None => true | Some _ => false end)
       (c <- initialize_chain env (groq_api_key env) ;; set_chain c) ;;
  s <- get_session ;;
  when (match messages s with None => true | Some _ => false end)
       (set_messages [] ;; append_message greeting).

(** Lines 124-127: the chat history is drawn. *)
Definition display_chat_history : Script unit :=
  ms <- get_messages ;;
  for_each ms (fun message =>
    let avatar := if role message =? "user" then user_avatar else assistant_avatar in
    emit (ChatMessage (role message) avatar (content message))).

(** Lines 132-169: a submitted text is answered. *)
Definition handle_user_input (gw : Gateway) (text : string) : Script unit :=
  append_message (mkTurn "user" text) ;;
  emit (ChatMessage "user" user_avatar text) ;;
  try_except
    (emit Spinner ;;
     ai_response_content <- invoke gw text ;;
     append_message (mkTurn "assistant" ai_response_content) ;;
     emit (ChatMessage "assistant" assistant_avatar ai_response_content))
    (fun e =>
       emit (StError ("An error occurred: " ++ e)%string) ;;
       append_message (mkTurn "assistant" error_message) ;;
       emit (ChatMessage "assistant" assistant_avatar error_message)).

(** Lines 172-178: the button that clears the chat history. *)
Definition clear_chat_history (env : Env) : Script unit :=
  set_messages [cleared_greeting] ;;
  c <- initialize_chain env (groq_api_key env) ;;
  set_chain c ;;
  st_rerun.

(** Lines 124-180: what a run does once the session state is set up. *)
Definition page_body (env : Env) (ev : Interaction) : Script unit :=
  display_chat_history ;;
  emit ChatInput ;;
  match user_input ev with
  | Some text => when (truthy (user_input ev)) (handle_user_input (gateway ev) text)
  | None => ret tt
  end ;;
  emit SidebarButton ;;
  when (clear_clicked ev) (clear_chat_history env) ;;
  emit (SidebarInfo ("Using Model: " ++ DEFAULT_MODEL)%string).

(** The script, from line 13 to its end: Streamlit executes all of it
    in every run.  When the key is loaded, the module-level variable is
    [groq_api_key env] in what follows. *)
Definition main (env : Env) (ev : Interaction) : Script unit :=
  load_groq_api_key env ;;
  emit PageHeader ;;
  init_session_state env ;;
  page_body env ev.

Arguments main : simpl never.

(** How a run ends. *)
Inductive Status : Type :=
| Completed
| Halted                       (* st.stop *)
| Crashed (exn : string).      (* an exception left the script *)

Definition status_of {A} (o : Outcome A) : Status :=
  match o with
  | Normal _ => Completed
  | Raised e => Crashed e
  | Stopped => Halted
  | Rerun => Completed
  end.

(** A run with no widget active: what [st.rerun] starts. *)
Definition idle (gw : Gateway) : Interaction := mkInteraction None false gw.

(** One interaction of the user with the page: the script runs on the
    session state, and runs once more, with no widget active, when it
    ended in [st.rerun]. *)
Definition run_script (env : Env) (ev : Interaction) (s : SessionState)
  : Status * World :=
  match main env ev (mkWorld s []) with
  | (Rerun, w) =>
      let '(o, w') := main env (idle (gateway ev)) w in (status_of o, w')
  | (o, w) => (status_of o, w)
  end.

Definition next_session (env : Env) (ev : Interaction) (s : SessionState)
  : SessionState :=
  session (snd (run_script env ev s)).

Definition run_trace (env : Env) (ev : Interaction) (s : SessionState)
  : list Effect :=
  trace (snd (run_script env ev s)).

Definition run_status (env : Env) (ev : Interaction) (s : SessionState)
  : Status :=
  fst (run_script env ev s).

(** The message lists of the calls of the chat model in a trace, in
    order: one for each [conversation_chain.invoke]. *)
Fixpoint gateway_requests (t : list Effect) : list (list Turn) :=
  match t with
  | [] => []
  | GatewayCall _ req :: rest => req :: gateway_requests rest
  | _ :: rest => gateway_requests rest
  end.

(** A sequence of interactions, one run after the other, and the
    session states a browser session goes through from the empty one. *)
Definition run_session (env : Env) (evs : list Interaction) (s : SessionState)
  : SessionState :=
  fold_left (fun s ev => next_session env ev s) evs s.

Inductive reachable (env : Env) : SessionState -> Prop :=
| reachable_empty : reachable env empty_session
| reachable_step s ev :
    reachable env s -> reachable env (next_session env ev s).

(** ** The transcript store, as the script uses it *)

(** [messages.append] on the list itself, and the list the display loop
    walks. *)
Definition append (transcript : list Turn) (t : Turn) : list Turn :=
  transcript ++ [t].

Definition append_all (transcript : list Turn) (ts : list Turn) : list Turn :=
  fold_left append ts transcript.

(** ** Pure descriptions of the phases of a run *)

(** What [initialize_chain] returns for the configured key, when it
    returns. *)
Definition init_result (env : Env) : option ConversationChain :=
  if truthy (groq_api_key env) then
    match chatgroq_raises env (key_text (groq_api_key env)) with
    | Some _ => None
    | None => Some (mkChain (key_text (groq_api_key env)) DEFAULT_MODEL [])
    end
  else None.

(** The error it shows when it stops instead. *)
Definition init_error (env : Env) : string :=
  if truthy (groq_api_key env) then
    match chatgroq_raises env (key_text (groq_api_key env)) with
    | Some e => ("Error initializing LangChain: " ++ e)%string
    | None => EmptyString
    end
  else missing_key_error.

Definition draw (message : Turn) : Effect :=
  ChatMessage (role message)
    (if role message =? "user" then user_avatar else assistant_avatar)
    (content message).

(** Chain, transcript and effects of answering one submitted text. *)
Definition exchange_chain (gw : Gateway) (text : string) (c : ConversationChain)
  : ConversationChain :=
  match gw (chain_request c text) with
  | Generated r => save_context c text r
  | Failed _ => c
  end.

Definition exchange_reply (gw : Gateway) (text : string) (c : ConversationChain)
  : string :=
  match gw (chain_request c text) with
  | Generated r => r
  | Failed _ => error_message
  end.

Definition exchange_trace (gw : Gateway) (text : string) (c : ConversationChain)
  : list Effect :=
  [ChatMessage "user" user_avatar text; Spinner;
   GatewayCall (model_name c) (chain_request c text)] ++
  match gw (chain_request c text) with
  | Generated r => [ChatMessage "assistant" assistant_avatar r]
  | Failed e =>
      [StError ("An error occurred: " ++ e)%string;
       ChatMessage "assistant" assistant_avatar error_message]
  end.

(** The text a run answers, if any. *)
Definition submitted (ev : Interaction) : option string :=
  if truthy (user_input ev) then user_input ev else None.

(** ** Closed forms of a run *)

(** The chain of the session once lines 113-114 have run, when they do
    not stop. *)
Definition initialized_chain (env : Env) (s : SessionState)
  : option ConversationChain :=
  match conversation_chain s with
  | Some c => Some c
  | None => init_result env
  end.

(** The session state once lines 13-121 have run, when the run gets
    that far (the key is loaded and the initialisation does not stop):
    the chain and the transcript the rest of the run works on. *)
Definition prepared_chain (env : Env) (s : SessionState)
  : option ConversationChain :=
  match key_lookup_error env with
  | Some _ => None
  | None => initialized_chain env s
  end.

Definition transcript (s : SessionState) : list Turn :=
  match messages s with
  | Some m => m
  | None => [greeting]
  end.

Definition answered_chain (ev : Interaction) (c : ConversationChain)
  : ConversationChain :=
  match submitted ev with
  | Some text => exchange_chain (gateway ev) text c
  | None => c
  end.

Definition answered_messages (ev : Interaction) (c : ConversationChain)
  (m : list Turn) : list Turn :=
  match submitted ev with
  | Some text =>
      m ++ [mkTurn "user" text;
            mkTurn "assistant" (exchange_reply (gateway ev) text c)]
  | None => m
  end.

Definition answered_trace (ev : Interaction) (c : ConversationChain)
  : list Effect :=
  match submitted ev with
  | Some text => exchange_trace (gateway ev) text c
  | None => []
  end.

(** Effects of a run up to the sidebar button. *)
Definition page_trace (ev : Interaction) (c : ConversationChain) (m : list Turn)
  : list Effect :=
  [PageHeader] ++ map draw m ++ [ChatInput] ++ answered_trace ev c
  ++ [SidebarButton].

Definition model_info : Effect :=
  SidebarInfo ("Using Model: " ++ DEFAULT_MODEL)%string.

(** One pass of [main] over a session that has its chain [c] and its
    transcript [m]. *)
Definition main_ready (env : Env) (ev : Interaction) (c : ConversationChain)
  (m : list Turn) (t : list Effect) : Outcome unit * World :=
  if clear_clicked ev then
    match init_result env with
    | Some c0 =>
        (Rerun,
         mkWorld (mkSession (Some c0) (Some [cleared_greeting]))
                 (t ++ page_trace ev c m))
    | None =>
        (Stopped,
         mkWorld (mkSession (Some (answered_chain ev c)) (Some [cleared_greeting]))
                 (t ++ page_trace ev c m ++ [StError (init_error env)]))
    end
  else
    (Normal tt,
     mkWorld (mkSession (Some (answered_chain ev c))
                        (Some (answered_messages ev c m)))
             (t ++ page_trace ev c m ++ [model_info])).

(** The whole interaction, rerun included, in closed form. *)
Definition run_ready (env : Env) (ev : Interaction) (c : ConversationChain)
  (m : list Turn) : Status * World :=
  if clear_clicked ev then
    match init_result env with
    | Some c0 =>
        (Completed,
         mkWorld (mkSession (Some c0) (Some [cleared_greeting]))
                 ((page_trace ev c m)
                  ++ page_trace (idle (gateway ev)) c0 [cleared_greeting]
                  ++ [model_info]))
    | None =>
        (Halted,
         mkWorld (mkSession (Some (answered_chain ev c)) (Some [cleared_greeting]))
                 (page_trace ev c m ++ [StError (init_error env)]))
    end
  else
    (Completed,
     mkWorld (mkSession (Some (answered_chain ev c))
                        (Some (answered_messages ev c m)))
             (page_trace ev c m ++ [model_info])).

(** ** Sessions *)

(** The requests of a sequence of interactions, in order. *)
Fixpoint session_requests (env : Env) (evs : list Interaction) (s : SessionState)
  : list (list Turn) :=
  match evs with
  | [] => []
  | ev :: rest =>
      gateway_requests (run_trace env ev s)
      ++ session_requests env rest (next_session env ev s)
  end.

(** The buffer and the request after the exchanges [xs], each a
    submitted text with the answer it got. *)
Definition exchange_messages (xs : list (string * string)) : list BaseMessage :=
  flat_map (fun x => [HumanMessage (fst x); AIMessage (snd x)]) xs.

Definition exchange_turns (xs : list (string * string)) : list Turn :=
  flat_map (fun x => [mkTurn "user" (fst x); mkTurn "assistant" (snd x)]) xs.

(** What holds of a session that has its chain and its transcript. *)
Record ready_inv (env : Env) (c : ConversationChain) (m : list Turn) : Prop := {
  inv_init : init_result env <> None;
  inv_memory : exists xs, chat_memory c = exchange_messages xs;
  inv_first : exists t rest, m = t :: rest /\ role t = "assistant";
  inv_length : length (chat_memory c) + 1 <= length m
}.

Definition session_inv (env : Env) (s : SessionState) : Prop :=
  match conversation_chain s, messages s with
  | None, None => True
  | Some c, Some m => ready_inv env c m
  | _, _ => False
  end.

(** The system text has no brace, so formatting it as a template leaves
    it as it is. *)
Definition has_brace (s : string) : bool :=
  existsb (fun a => orb (Ascii.eqb a "{"%char) (Ascii.eqb a "}"%char))
          (list_ascii_of_string s).

(** ** Concrete sessions used as instances *)

Module Sample.

(** A key in the environment, a client that builds. *)
Definition env : Env :=
  mkEnv (Some "gsk-sample") SecretKeyError (fun _ => None).

(** No key anywhere: none in the environment, none in the secrets
    file. *)
Definition env_without_key : Env := mkEnv None SecretKeyError (fun _ => None).

Definition answers (text : string) : Gateway := fun _ => Generated text.
Definition fails (exn : string) : Gateway := fun _ => Failed exn.

Definition submit (text : string) (gw : Gateway) : Interaction :=
  mkInteraction (Some text) false gw.

Definition click_clear : Interaction :=
  mkInteraction None true (fails "unused").

Definition page_load : Interaction := idle (fails "unused").

(** The page has been opened: chain built, greeting shown. *)
Definition opened : SessionState := next_session env page_load empty_session.

(** One exchange has been answered. *)
Definition after_hi : SessionState :=
  next_session env (submit "hi" (answers "hello")) opened.

End Sample.

(** ** Further predicates on sessions *)

(** [l1] is [l2] with some elements left out, the order kept. *)
Inductive Subseq {A : Type} : list A -> list A -> Prop :=
| Subseq_nil : Subseq [] []
| Subseq_skip x l1 l2 : Subseq l1 l2 -> Subseq l1 (x :: l2)
| Subseq_take x l1 l2 : Subseq l1 l2 -> Subseq (x :: l1) (x :: l2).

(** The chat messages a trace draws, in order. *)
Definition is_chat_message (e : Effect) : bool :=
  match e with
  | ChatMessage _ _ _ => true
  | _ => false
  end.

Definition chat_messages (t : list Effect) : list Effect :=
  filter is_chat_message t.

(** The history [xs] of the chain and the exchanges [ys] shown after
    the first turn of the transcript, for a session that has both. *)
Record history_inv (env : Env) (c : ConversationChain) (m : list Turn)
  : Prop := {
  hist_key : groq_api_key_of c = key_text (groq_api_key env);
  hist_model : model_name c = DEFAULT_MODEL;
  hist_shape :
    exists g xs ys,
      m = g :: exchange_turns ys
      /\ (g = greeting \/ g = cleared_greeting)
      /\ chat_memory c = exchange_messages xs
      /\ Subseq xs ys
}.

Definition session_history (env : Env) (s : SessionState) : Prop :=
  match conversation_chain s, messages s with
  | None, None => True
  | Some c, Some m => history_inv env c m
  | _, _ => False
  end.

(** The interactions of a list of exchanges that succeed: each text is
    submitted to an endpoint that answers it with the given reply. *)
Definition answering (reply : string) : Gateway := fun _ => Generated reply.

Definition submissions (xs : list (string * string)) : list Interaction :=
  map (fun x => mkInteraction (Some (fst x)) false (answering (snd x))) xs.

Module SampleConfig.

(** The key only in Streamlit's secrets; an empty variable in the
    environment. *)
Definition env_secrets : Env :=
  mkEnv (Some EmptyString) (SecretFound "gsk-secret") (fun _ => None).

(** A key in both places. *)
Definition env_both : Env :=
  mkEnv (Some "gsk-env") (SecretFound "gsk-secret") (fun _ => None).

(** A key for which the client cannot be built. *)
Definition env_broken_client : Env :=
  mkEnv (Some "gsk-sample") SecretKeyError
        (fun _ => Some "invalid client options").

(** No key in the environment and no secrets file at all. *)
Definition env_without_secrets_file : Env :=
  mkEnv None (SecretsError "StreamlitSecretNotFoundError: No secrets found.")
        (fun _ => None).

End SampleConfig.

(** ** Lemmas on the monad and the phases *)

Lemma bind_normal {A B} (m : Script A) (k : A -> Script B) w a w' :
  m w = (Normal a, w') -> bind m k w = k a w'.
Proof. intros H. unfold bind. now rewrite H. Qed.

Lemma for_each_emit {A} (f : A -> Effect) (xs : list A) s t :
  for_each xs (fun x => emit (f x)) (mkWorld s t)
  = (Normal tt, mkWorld s (t ++ map f xs)).
Proof.
  revert t. induction xs as [|x xs IH]; intros t; cbn.
  - now rewrite app_nil_r.
  - unfold bind, emit at 1; cbn. rewrite IH. now rewrite <- app_assoc.
Qed.

Lemma display_chat_history_spec c m t :
  display_chat_history (mkWorld (mkSession c (Some m)) t)
  = (Normal tt, mkWorld (mkSession c (Some m)) (t ++ map draw m)).
Proof.
  unfold display_chat_history, get_messages, get_session, bind, ret; cbn.
  apply (for_each_emit draw).
Qed.

Lemma initialize_chain_spec env s t :
  initialize_chain env (groq_api_key env) (mkWorld s t)
  = match init_result env with
    | Some c => (Normal c, mkWorld s t)
    | None => (Stopped, mkWorld s (t ++ [StError (init_error env)]))
    end.
Proof.
  unfold initialize_chain, init_result, init_error.
  destruct (truthy (groq_api_key env)); cbn [negb when].
  - unfold bind at 1, ret at 1. unfold try_except, bind at 1, ChatGroq.
    destruct (chatgroq_raises env (key_text (groq_api_key env))); reflexivity.
  - reflexivity.
Qed.

Lemma invoke_spec gw text c m t :
  invoke gw text (mkWorld (mkSession (Some c) m) t)
  = match gw (chain_request c text) with
    | Generated r =>
        (Normal r,
         mkWorld (mkSession (Some (save_context c text r)) m)
                 (t ++ [GatewayCall (model_name c) (chain_request c text)]))
    | Failed e =>
        (Raised e,
         mkWorld (mkSession (Some c) m)
                 (t ++ [GatewayCall (model_name c) (chain_request c text)]))
    end.
Proof.
  unfold invoke, get_chain, set_chain, get_session, put_session, emit, bind,
    ret, raise; cbn.
  destruct (gw (chain_request c text)); reflexivity.
Qed.

Lemma emit_spec e s t :
  emit e (mkWorld s t) = (Normal tt, mkWorld s (t ++ [e])).
Proof. reflexivity. Qed.

Lemma append_message_spec x c m t :
  append_message x (mkWorld (mkSession c (Some m)) t)
  = (Normal tt, mkWorld (mkSession c (Some (m ++ [x]))) t).
Proof. reflexivity. Qed.

Lemma set_messages_spec m s t :
  set_messages m (mkWorld s t)
  = (Normal tt, mkWorld (mkSession (conversation_chain s) (Some m)) t).
Proof. reflexivity. Qed.

Lemma set_chain_spec c s t :
  set_chain c (mkWorld s t)
  = (Normal tt, mkWorld (mkSession (Some c) (messages s)) t).
Proof. reflexivity. Qed.

(** Runs the next statement of a sequence with the equation [H] of its
    effect. *)
Ltac step H := erewrite bind_normal by (apply H).

Lemma handle_user_input_spec gw text c m t :
  handle_user_input gw text (mkWorld (mkSession (Some c) (Some m)) t)
  = (Normal tt,
     mkWorld (mkSession (Some (exchange_chain gw text c))
                        (Some (m ++ [mkTurn "user" text;
                                     mkTurn "assistant" (exchange_reply gw text c)])))
             (t ++ exchange_trace gw text c)).
Proof.
  unfold handle_user_input, exchange_chain, exchange_reply, exchange_trace.
  step append_message_spec. step emit_spec.
  unfold try_except. step emit_spec.
  unfold bind at 1. rewrite invoke_spec.
  destruct (gw (chain_request c text)) as [r|e].
  - step append_message_spec. rewrite emit_spec.
    repeat rewrite <- app_assoc. reflexivity.
  - step emit_spec. step append_message_spec. rewrite emit_spec.
    repeat rewrite <- app_assoc. reflexivity.
Qed.

Lemma load_groq_api_key_spec env w :
  load_groq_api_key env w
  = match key_lookup_error env with
    | Some exn => (Raised exn, w)
    | None => (Normal (groq_api_key env), w)
    end.
Proof.
  unfold load_groq_api_key, key_lookup_error, groq_api_key, secrets_key.
  destruct (truthy (getenv_key env)); cbn [negb]; [reflexivity|].
  destruct (secrets_lookup env); reflexivity.
Qed.

Lemma truthy_key_loads env :
  truthy (groq_api_key env) = true -> key_lookup_error env = None.
Proof.
  unfold groq_api_key, key_lookup_error, secrets_key.
  destruct (truthy (getenv_key env)); [reflexivity|].
  destruct (secrets_lookup env); (reflexivity || discriminate).
Qed.

Lemma init_result_loads env :
  init_result env <> None -> key_lookup_error env = None.
Proof.
  intros H. apply truthy_key_loads. unfold init_result in H.
  destruct (truthy (groq_api_key env)); [reflexivity|now elim H].
Qed.

Lemma prepared_chain_loads env s c :
  prepared_chain env s = Some c -> key_lookup_error env = None.
Proof.
  unfold prepared_chain. destruct (key_lookup_error env); [discriminate|].
  reflexivity.
Qed.

Lemma prepared_chain_initialized env s :
  key_lookup_error env = None ->
  prepared_chain env s = initialized_chain env s.
Proof. intros H. unfold prepared_chain. now rewrite H. Qed.

Lemma prepared_chain_some env c m :
  key_lookup_error env = None ->
  prepared_chain env (mkSession (Some c) m) = Some c.
Proof. intros H. unfold prepared_chain. now rewrite H. Qed.

Lemma init_session_state_spec env s t :
  init_session_state env (mkWorld s t)
  = match initialized_chain env s with
    | Some c => (Normal tt, mkWorld (mkSession (Some c) (Some (transcript s))) t)
    | None => (Stopped, mkWorld s (t ++ [StError (init_error env)]))
    end.
Proof.
  unfold init_session_state, initialized_chain, transcript.
  destruct s as [[c|] ms]; cbn [conversation_chain messages].
  - unfold bind at 1, get_session at 1, when at 1, ret at 1.
    unfold bind at 1. cbn.
    destruct ms; reflexivity.
  - unfold bind at 1, get_session at 1, when at 1.
    unfold bind at 1 2. cbn. rewrite initialize_chain_spec.
    destruct (init_result env); [|reflexivity].
    cbn. destruct ms; reflexivity.
Qed.

Lemma clear_chat_history_spec env s t :
  clear_chat_history env (mkWorld s t)
  = match init_result env with
    | Some c0 =>
        (Rerun, mkWorld (mkSession (Some c0) (Some [cleared_greeting])) t)
    | None =>
        (Stopped,
         mkWorld (mkSession (conversation_chain s) (Some [cleared_greeting]))
                 (t ++ [StError (init_error env)]))
    end.
Proof.
  unfold clear_chat_history.
  step set_messages_spec. unfold bind at 1. rewrite initialize_chain_spec.
  destruct (init_result env); reflexivity.
Qed.

Lemma submitted_spec ev :
  submitted ev
  = match user_input ev with
    | Some text => if truthy (user_input ev) then Some text else None
    | None => None
    end.
Proof. unfold submitted. destruct (user_input ev); [|reflexivity]. reflexivity. Qed.

Lemma main_ready_spec env ev c m t :
  key_lookup_error env = None ->
  main env ev (mkWorld (mkSession (Some c) (Some m)) t)
  = main_ready env ev c m t.
Proof.
  intros Hload.
  assert (tail : forall c1 m1 t1,
    (emit SidebarButton ;;
     when (clear_clicked ev) (clear_chat_history env) ;;
     emit model_info) (mkWorld (mkSession (Some c1) (Some m1)) t1)
    = if clear_clicked ev then
        match init_result env with
        | Some c0 =>
            (Rerun,
             mkWorld (mkSession (Some c0) (Some [cleared_greeting]))
                     (t1 ++ [SidebarButton]))
        | None =>
            (Stopped,
             mkWorld (mkSession (Some c1) (Some [cleared_greeting]))
                     ((t1 ++ [SidebarButton]) ++ [StError (init_error env)]))
        end
      else
        (Normal tt,
         mkWorld (mkSession (Some c1) (Some m1))
                 ((t1 ++ [SidebarButton]) ++ [model_info]))).
  { intros c1 m1 t1. step emit_spec.
    destruct (clear_clicked ev); cbn [when].
    - unfold bind. rewrite clear_chat_history_spec.
      destruct (init_result env); reflexivity.
    - unfold bind at 1, ret at 1. apply emit_spec. }
  unfold main. unfold bind at 1. rewrite load_groq_api_key_spec, Hload.
  unfold page_body, main_ready, page_trace, answered_chain,
    answered_messages, answered_trace.
  fold model_info.
  step emit_spec.
  erewrite bind_normal by (rewrite init_session_state_spec; reflexivity).
  cbn [transcript messages].
  step display_chat_history_spec. step emit_spec.
  rewrite submitted_spec.
  destruct (user_input ev) as [text|].
  - destruct (truthy (Some text)); cbn [when].
    + step handle_user_input_spec. rewrite tail.
      destruct (clear_clicked ev); [destruct (init_result env)|];
        repeat rewrite <- app_assoc; reflexivity.
    + unfold bind at 1, ret at 1. rewrite tail.
      destruct (clear_clicked ev); [destruct (init_result env)|];
        repeat rewrite <- app_assoc; reflexivity.
  - unfold bind at 1, ret at 1. rewrite tail.
    destruct (clear_clicked ev); [destruct (init_result env)|];
      repeat rewrite <- app_assoc; reflexivity.
Qed.

Lemma main_spec env ev s t :
  main env ev (mkWorld s t)
  = match key_lookup_error env with
    | Some exn => (Raised exn, mkWorld s t)
    | None =>
        match initialized_chain env s with
        | Some c => main_ready env ev c (transcript s) t
        | None =>
            (Stopped,
             mkWorld s ((t ++ [PageHeader]) ++ [StError (init_error env)]))
        end
    end.
Proof.
  destruct (key_lookup_error env) as [exn|] eqn:L.
  - unfold main, bind. now rewrite load_groq_api_key_spec, L.
  - assert (after_header : forall s0,
      main env ev (mkWorld s0 t)
      = (init_session_state env ;; page_body env ev)
          (mkWorld s0 (t ++ [PageHeader]))).
    { intros s0. unfold main. unfold bind at 1.
      rewrite load_groq_api_key_spec, L. now step emit_spec. }
    destruct (initialized_chain env s) as [c|] eqn:P.
    + rewrite <- (main_ready_spec env ev c (transcript s) t L).
      rewrite !after_header. unfold bind at 1. symmetry. unfold bind at 1.
      rewrite !init_session_state_spec. rewrite P. reflexivity.
    + rewrite after_header. unfold bind.
      rewrite init_session_state_spec, P. reflexivity.
Qed.

Lemma run_script_spec env ev s :
  run_script env ev s
  = match key_lookup_error env with
    | Some exn => (Crashed exn, mkWorld s [])
    | None =>
        match initialized_chain env s with
        | Some c => run_ready env ev c (transcript s)
        | None => (Halted, mkWorld s [PageHeader; StError (init_error env)])
        end
    end.
Proof.
  unfold run_script. rewrite main_spec.
  destruct (key_lookup_error env) as [exn|] eqn:L; [reflexivity|].
  destruct (initialized_chain env s) as [c|]; [|reflexivity].
  unfold main_ready, run_ready.
  destruct (clear_clicked ev); [|reflexivity].
  destruct (init_result env) as [c0|]; [|reflexivity].
  rewrite (main_ready_spec env _ _ _ _ L). unfold main_ready.
  cbn [clear_clicked idle]. reflexivity.
Qed.

(** The same in terms of [prepared_chain]. *)
Lemma run_script_prepared env ev s c :
  prepared_chain env s = Some c ->
  run_script env ev s = run_ready env ev c (transcript s).
Proof.
  intros P. rewrite run_script_spec.
  unfold prepared_chain in P.
  destruct (key_lookup_error env); [discriminate|]. now rewrite P.
Qed.

Lemma run_script_unprepared env ev s :
  prepared_chain env s = None ->
  run_script env ev s
  = match key_lookup_error env with
    | Some exn => (Crashed exn, mkWorld s [])
    | None => (Halted, mkWorld s [PageHeader; StError (init_error env)])
    end.
Proof.
  intros P. rewrite run_script_spec.
  unfold prepared_chain in P.
  destruct (key_lookup_error env); [reflexivity|]. now rewrite P.
Qed.

Lemma next_session_spec env ev s :
  next_session env ev s
  = match prepared_chain env s with
    | Some c =>
        if clear_clicked ev then
          mkSession
            (Some (match init_result env with
                   | Some c0 => c0
                   | None => answered_chain ev c
                   end))
            (Some [cleared_greeting])
        else
          mkSession (Some (answered_chain ev c))
                    (Some (answered_messages ev c (transcript s)))
    | None => s
    end.
Proof.
  unfold next_session.
  destruct (prepared_chain env s) as [c|] eqn:P.
  - rewrite (run_script_prepared env ev s c P). unfold run_ready.
    destruct (clear_clicked ev); [destruct (init_result env)|]; reflexivity.
  - rewrite (run_script_unprepared env ev s P).
    destruct (key_lookup_error env); reflexivity.
Qed.

Lemma gateway_requests_app t1 t2 :
  gateway_requests (t1 ++ t2) = gateway_requests t1 ++ gateway_requests t2.
Proof.
  induction t1 as [|e t1 IH]; [reflexivity|].
  destruct e; cbn; rewrite IH; reflexivity.
Qed.

Lemma gateway_requests_draw m : gateway_requests (map draw m) = [].
Proof. induction m as [|x m IH]; [reflexivity|]. exact IH. Qed.

Lemma gateway_requests_exchange gw text c :
  gateway_requests (exchange_trace gw text c) = [chain_request c text].
Proof.
  unfold exchange_trace. destruct (gw (chain_request c text)); reflexivity.
Qed.

Lemma gateway_requests_page ev c m :
  gateway_requests (page_trace ev c m)
  = match submitted ev with
    | Some text => [chain_request c text]
    | None => []
    end.
Proof.
  unfold page_trace, answered_trace.
  rewrite !gateway_requests_app, gateway_requests_draw.
  destruct (submitted ev); cbn [gateway_requests app];
    [rewrite gateway_requests_exchange|]; reflexivity.
Qed.

Lemma run_requests_spec env ev s :
  gateway_requests (run_trace env ev s)
  = match prepared_chain env s, submitted ev with
    | Some c, Some text => [chain_request c text]
    | _, _ => []
    end.
Proof.
  unfold run_trace.
  destruct (prepared_chain env s) as [c|] eqn:P;
    [|rewrite (run_script_unprepared env ev s P);
      destruct (key_lookup_error env); reflexivity].
  rewrite (run_script_prepared env ev s c P). unfold run_ready.
  destruct (clear_clicked ev); [destruct (init_result env)|];
    cbn [snd trace]; rewrite !gateway_requests_app, ?gateway_requests_page;
    cbn [submitted idle user_input truthy gateway_requests model_info];
    destruct (submitted ev); reflexivity.
Qed.

Lemma run_status_spec env ev s :
  run_status env ev s
  = match prepared_chain env s with
    | Some c =>
        if clear_clicked ev then
          match init_result env with Some _ => Completed | None => Halted end
        else Completed
    | None =>
        match key_lookup_error env with
        | Some exn => Crashed exn
        | None => Halted
        end
    end.
Proof.
  unfold run_status.
  destruct (prepared_chain env s) as [c|] eqn:P.
  - rewrite (run_script_prepared env ev s c P). unfold run_ready.
    destruct (clear_clicked ev); [destruct (init_result env)|]; reflexivity.
  - rewrite (run_script_unprepared env ev s P).
    destruct (key_lookup_error env); reflexivity.
Qed.

(** ** Invariants of a session *)

Lemma exchange_turns_messages xs :
  map convert_message_to_dict (exchange_messages xs) = exchange_turns xs.
Proof.
  induction xs as [|x xs IH]; [reflexivity|].
  cbn [exchange_messages exchange_turns flat_map app map convert_message_to_dict].
  f_equal. f_equal. exact IH.
Qed.

Lemma exchange_messages_snoc xs u a :
  exchange_messages (xs ++ [(u, a)])
  = exchange_messages xs ++ [HumanMessage u; AIMessage a].
Proof.
  unfold exchange_messages. rewrite flat_map_app. cbn. reflexivity.
Qed.

Lemma chain_request_unfold c text :
  chain_request c text
  = mkTurn "system" SYSTEM_PROMPT
    :: map convert_message_to_dict (chat_memory c) ++ [mkTurn "user" text].
Proof.
  unfold chain_request, prompt_template. cbn [app map].
  now rewrite map_app.
Qed.

Lemma chain_request_length c text :
  length (chain_request c text) = length (chat_memory c) + 2.
Proof.
  rewrite chain_request_unfold. cbn [length].
  rewrite length_app, length_map. cbn. lia.
Qed.

Lemma init_result_memory env c0 :
  init_result env = Some c0 -> chat_memory c0 = [].
Proof.
  unfold init_result.
  destruct (truthy (groq_api_key env)); [|discriminate].
  destruct (chatgroq_raises env (key_text (groq_api_key env))); [discriminate|].
  intros H. injection H as <-. reflexivity.
Qed.

Lemma prepared_inv env s c :
  session_inv env s -> prepared_chain env s = Some c ->
  ready_inv env c (transcript s).
Proof.
  intros Hs P.
  rewrite (prepared_chain_initialized env s (prepared_chain_loads env s c P))
    in P.
  revert Hs P. unfold session_inv, initialized_chain, transcript.
  destruct s as [[c1|] [m|]]; cbn [conversation_chain messages];
    try contradiction.
  - intros H E. injection E as <-. exact H.
  - intros _ E. pose proof (init_result_memory env _ E) as M.
    split.
    + rewrite E. discriminate.
    + exists []. exact M.
    + exists greeting, []. split; reflexivity.
    + rewrite M. cbn. lia.
Qed.

Lemma answered_inv env ev c m :
  ready_inv env c m ->
  ready_inv env (answered_chain ev c) (answered_messages ev c m).
Proof.
  intros [Hi [xs Hm] [t [rest [Hf Hr]]] Hl].
  unfold answered_chain, answered_messages, exchange_chain, exchange_reply.
  destruct (submitted ev) as [text|].
  - destruct (gateway ev (chain_request c text)) as [r|e]; split;
      try exact Hi; cbn [chat_memory save_context].
    + exists (xs ++ [(text, r)]). now rewrite exchange_messages_snoc, Hm.
    + exists t, (rest ++ [mkTurn "user" text; mkTurn "assistant" r]).
      split; [now rewrite Hf|exact Hr].
    + rewrite !length_app. cbn. lia.
    + now exists xs.
    + exists t, (rest ++ [mkTurn "user" text; mkTurn "assistant" error_message]).
      split; [now rewrite Hf|exact Hr].
    + rewrite !length_app. cbn. lia.
  - split; try assumption; [now exists xs | now exists t, rest].
Qed.

Lemma next_session_inv env ev s :
  session_inv env s -> session_inv env (next_session env ev s).
Proof.
  intros H. rewrite next_session_spec.
  destruct (prepared_chain env s) as [c|] eqn:P; [|exact H].
  pose proof (prepared_inv env s c H P) as R.
  destruct (clear_clicked ev).
  - unfold session_inv; cbn [conversation_chain messages].
    destruct (init_result env) as [c0|] eqn:E.
    + split.
      * rewrite E. discriminate.
      * exists []. exact (init_result_memory env _ E).
      * exists cleared_greeting, []. split; reflexivity.
      * rewrite (init_result_memory env _ E). cbn. lia.
    + destruct R as [Hi _ _ _]. contradiction.
  - exact (answered_inv env ev c _ R).
Qed.

Lemma reachable_inv env s : reachable env s -> session_inv env s.
Proof.
  induction 1 as [|s ev _ IH]; [exact I|].
  now apply next_session_inv.
Qed.

Lemma run_session_reachable env evs s :
  reachable env s -> reachable env (run_session env evs s).
Proof.
  revert s. induction evs as [|ev evs IH]; intros s H; [exact H|].
  cbn. apply IH. now constructor.
Qed.

Lemma opened_reachable : reachable Sample.env Sample.opened.
Proof. apply reachable_step, reachable_empty. Defined.

Lemma after_hi_reachable : reachable Sample.env Sample.after_hi.
Proof. apply reachable_step, opened_reachable. Defined.

(** ** The properties *)

Lemma SYSTEM_PROMPT_has_no_placeholder : has_brace SYSTEM_PROMPT = false.
Proof. vm_compute. reflexivity. Qed.

Lemma for_each_append_message ts c m t :
  for_each ts append_message (mkWorld (mkSession c (Some m)) t)
  = (Normal tt, mkWorld (mkSession c (Some (m ++ ts))) t).
Proof.
  revert m. induction ts as [|x ts IH]; intros m; cbn [for_each].
  - now rewrite app_nil_r.
  - step append_message_spec. rewrite IH, <- app_assoc. reflexivity.
Qed.

(** C7. Turns appended one after the other to the transcript are read
    back, by [get_messages] and by the display loop, as exactly those
    turns in the order they were appended, after the turns that were
    there before; from the empty list they are the whole transcript. *)
Theorem appended_turns_read_back_in_order :
  forall (ts m : list Turn) (c : option ConversationChain) (t : list Effect),
    fst ((for_each ts append_message ;; get_messages)
           (mkWorld (mkSession c (Some m)) t)) = Normal (m ++ ts)
    /\ fst ((for_each ts append_message ;; get_messages)
              (mkWorld (mkSession c (Some [])) t)) = Normal ts
    /\ append_all m ts = m ++ ts
    /\ length (append_all [] ts) = length ts
    /\ trace (snd ((for_each ts append_message ;; display_chat_history)
                     (mkWorld (mkSession c (Some [])) t)))
       = t ++ map draw ts.
Proof.
  intros ts m c t.
  assert (A : forall m0, append_all m0 ts = m0 ++ ts).
  { unfold append_all, append. induction ts as [|x ts IH]; intros m0; cbn.
    - now rewrite app_nil_r.
    - rewrite IH, <- app_assoc. reflexivity. }
  repeat split.
  - step for_each_append_message. reflexivity.
  - step for_each_append_message. reflexivity.
  - apply A.
  - now rewrite A.
  - step for_each_append_message. cbn [app].
    now rewrite display_chat_history_spec.
Qed.

(** C5. With the exchange "hi" / "hello" in the chain's history, the
    input "how are you" is sent as the system text, the user turn "hi",
    the assistant turn "hello" and the user turn "how are you", in this
    order; this is the request of a session that was opened, got "hello"
    for "hi" and now submits "how are you". *)
Theorem request_after_hi_hello :
  map convert_message_to_dict
      (prompt_template [HumanMessage "hi"; AIMessage "hello"] "how are you")
  = [mkTurn "system" SYSTEM_PROMPT; mkTurn "user" "hi";
     mkTurn "assistant" "hello"; mkTurn "user" "how are you"]
  /\ (forall gw,
        gateway_requests
          (run_trace Sample.env (Sample.submit "how are you" gw) Sample.after_hi)
        = [[mkTurn "system" SYSTEM_PROMPT; mkTurn "user" "hi";
            mkTurn "assistant" "hello"; mkTurn "user" "how are you"]]).
Proof.
  split; [reflexivity|].
  intros gw. rewrite run_requests_spec. reflexivity.
Qed.

(** C4. A run in which the clear button is clicked, on a session whose
    run gets as far as the button, leaves a transcript of exactly one
    turn, the fixed assistant turn "Chat history cleared. How can I help
    you now?", whatever the transcript was; the button's handler sets it
    whatever the session state. *)
Theorem clear_yields_single_greeting :
  forall env ev s,
    clear_clicked ev = true ->
    prepared_chain env s <> None ->
    messages (next_session env ev s) = Some [cleared_greeting]
    /\ length [cleared_greeting] = 1
    /\ role cleared_greeting = "assistant"
    /\ content cleared_greeting = "Chat history cleared. How can I help you now?"
    /\ (forall t,
          messages (session (snd (clear_chat_history env (mkWorld s t))))
          = Some [cleared_greeting]).
Proof.
  intros env ev s Hc Hp. repeat split.
  - rewrite next_session_spec.
    destruct (prepared_chain env s); [|contradiction].
    rewrite Hc. reflexivity.
  - intros t. rewrite clear_chat_history_spec.
    destruct (init_result env); reflexivity.
Qed.

Lemma clear_yields_single_greeting_witness :
  messages (next_session Sample.env Sample.click_clear Sample.after_hi)
  = Some [cleared_greeting]
  /\ length [cleared_greeting] = 1
  /\ role cleared_greeting = "assistant"
  /\ content cleared_greeting = "Chat history cleared. How can I help you now?"
  /\ (forall t,
        messages (session (snd (clear_chat_history Sample.env
                                  (mkWorld Sample.after_hi t))))
        = Some [cleared_greeting]).
Proof.
  apply (clear_yields_single_greeting Sample.env Sample.click_clear Sample.after_hi).
  - reflexivity.
  - vm_compute. discriminate.
Defined.

Lemma prepared_chain_next env ev s :
  prepared_chain env s <> None ->
  prepared_chain env (next_session env ev s) = conversation_chain (next_session env ev s)
  /\ conversation_chain (next_session env ev s) <> None.
Proof.
  intros Hp. rewrite next_session_spec.
  destruct (prepared_chain env s) as [c|] eqn:P; [|contradiction].
  pose proof (prepared_chain_loads env s c P) as L.
  destruct (clear_clicked ev); rewrite (prepared_chain_some env _ _ L);
    cbn; split; (reflexivity || discriminate).
Qed.

(** C6. Clicking the clear button in two runs in a row leaves, after
    the second run, the session state the first run left: the transcript
    is the single turn [cleared_greeting] both times and the chain is
    the freshly built one. *)
Theorem clear_twice_same_state :
  forall env ev1 ev2 s,
    reachable env s ->
    prepared_chain env s <> None ->
    clear_clicked ev1 = true ->
    clear_clicked ev2 = true ->
    next_session env ev2 (next_session env ev1 s) = next_session env ev1 s
    /\ messages (next_session env ev1 s) = Some [cleared_greeting]
    /\ messages (next_session env ev2 (next_session env ev1 s))
       = Some [cleared_greeting].
Proof.
  intros env ev1 ev2 s Hr Hp H1 H2.
  assert (E : exists c0, init_result env = Some c0
                         /\ next_session env ev1 s
                            = mkSession (Some c0) (Some [cleared_greeting])).
  { rewrite next_session_spec.
    destruct (prepared_chain env s) as [c|] eqn:P; [|contradiction].
    destruct (prepared_inv env s c (reachable_inv env s Hr) P) as [Hi _ _ _].
    destruct (init_result env) as [c0|]; [|contradiction].
    exists c0. rewrite H1. split; reflexivity. }
  destruct E as [c0 [Ei E1]].
  assert (E2 : next_session env ev2 (next_session env ev1 s)
               = mkSession (Some c0) (Some [cleared_greeting])).
  { assert (L : key_lookup_error env = None)
      by (apply init_result_loads; rewrite Ei; discriminate).
    rewrite E1, next_session_spec, (prepared_chain_some env _ _ L).
    rewrite H2, Ei. reflexivity. }
  rewrite E2, E1. repeat split.
Qed.

Lemma clear_twice_same_state_witness :
  next_session Sample.env Sample.click_clear
    (next_session Sample.env Sample.click_clear Sample.after_hi)
  = next_session Sample.env Sample.click_clear Sample.after_hi
  /\ messages (next_session Sample.env Sample.click_clear Sample.after_hi)
     = Some [cleared_greeting]
  /\ messages (next_session Sample.env Sample.click_clear
                 (next_session Sample.env Sample.click_clear Sample.after_hi))
     = Some [cleared_greeting].
Proof.
  apply (clear_twice_same_state Sample.env Sample.click_clear Sample.click_clear
           Sample.after_hi).
  - exact after_hi_reachable.
  - vm_compute. discriminate.
  - reflexivity.
  - reflexivity.
Defined.

Lemma key_lookup_error_crashes env ev s exn :
  key_lookup_error env = Some exn ->
  run_script env ev s = (Crashed exn, mkWorld s []).
Proof. intros L. now rewrite run_script_spec, L. Qed.

(** X14. When the session has no chain yet, the key is missing or empty
    and the lookup in the secrets did not let an exception through, the run
    shows the missing-key error and stops there, whatever was submitted
    or clicked: the run is halted, the session state is as before, the
    chat input is never drawn and no call is made. *)
Theorem missing_key_halts_before_input :
  forall env ev s,
    conversation_chain s = None ->
    key_lookup_error env = None ->
    truthy (groq_api_key env) = false ->
    run_script env ev s
    = (Halted, mkWorld s [PageHeader; StError missing_key_error])
    /\ next_session env ev s = s
    /\ ~ In ChatInput (run_trace env ev s)
    /\ gateway_requests (run_trace env ev s) = [].
Proof.
  intros env ev s Hc Hl Hk.
  assert (Ei : init_result env = None /\ init_error env = missing_key_error).
  { unfold init_result, init_error. rewrite Hk. split; reflexivity. }
  destruct Ei as [Ei Ee].
  assert (R : run_script env ev s
              = (Halted, mkWorld s [PageHeader; StError missing_key_error])).
  { rewrite run_script_spec, Hl. unfold initialized_chain.
    rewrite Hc, Ei, Ee. reflexivity. }
  unfold next_session, run_trace. rewrite R. cbn [snd session trace].
  repeat split.
  intros [H|[H|[]]]; discriminate.
Qed.

Lemma missing_key_halts_before_input_witness :
  run_script Sample.env_without_key (Sample.submit "hi" (Sample.answers "hello"))
    empty_session
  = (Halted, mkWorld empty_session [PageHeader; StError missing_key_error])
  /\ next_session Sample.env_without_key
       (Sample.submit "hi" (Sample.answers "hello")) empty_session
     = empty_session
  /\ ~ In ChatInput
       (run_trace Sample.env_without_key
          (Sample.submit "hi" (Sample.answers "hello")) empty_session)
  /\ gateway_requests
       (run_trace Sample.env_without_key
          (Sample.submit "hi" (Sample.answers "hello")) empty_session)
     = [].
Proof.
  apply (missing_key_halts_before_input Sample.env_without_key
           (Sample.submit "hi" (Sample.answers "hello")) empty_session).
  - reflexivity.
  - reflexivity.
  - reflexivity.
Defined.

(** C8. With no key in the environment and no secrets file, so that
    the lookup in [st.secrets] at line 19 raises an exception that is
    not a [KeyError], the run of a new session ends with that exception
    leaving the script before anything is drawn: it is not halted by
    [st.stop], the missing-key error is not shown, and the session
    state stays empty; the chat input is not reached. *)
Theorem missing_secrets_file_crashes_startup :
  forall ev,
    truthy (groq_api_key SampleConfig.env_without_secrets_file) = false
    /\ run_script SampleConfig.env_without_secrets_file ev empty_session
       = (Crashed "StreamlitSecretNotFoundError: No secrets found.",
          mkWorld empty_session [])
    /\ run_status SampleConfig.env_without_secrets_file ev empty_session
       <> Halted
    /\ ~ In (StError missing_key_error)
         (run_trace SampleConfig.env_without_secrets_file ev empty_session)
    /\ ~ In ChatInput
         (run_trace SampleConfig.env_without_secrets_file ev empty_session).
Proof.
  intros ev.
  assert (R : run_script SampleConfig.env_without_secrets_file ev empty_session
              = (Crashed "StreamlitSecretNotFoundError: No secrets found.",
                 mkWorld empty_session [])).
  { now apply key_lookup_error_crashes. }
  split; [reflexivity|]. split; [exact R|].
  unfold run_status, run_trace. rewrite R. cbn [fst snd trace].
  split; [discriminate|]. split; intros [].
Qed.

(** C10. In every session state a session reaches, the displayed
    transcript, once it is set, is not empty and starts with an
    assistant turn; and it is set in every state reached through a run
    that got past the initialisation. *)
Theorem transcript_starts_with_assistant :
  forall env s,
    reachable env s ->
    (forall m, messages s = Some m ->
               m <> [] /\ exists t rest, m = t :: rest /\ role t = "assistant")
    /\ (forall ev, prepared_chain env s <> None ->
                   exists t rest,
                     messages (next_session env ev s) = Some (t :: rest)
                     /\ role t = "assistant").
Proof.
  intros env s Hr. split.
  - intros m Hm. pose proof (reachable_inv env s Hr) as H.
    unfold session_inv in H. rewrite Hm in H.
    destruct (conversation_chain s); [|contradiction].
    destruct H as [_ _ [t [rest [Hf Ht]]] _].
    split; [rewrite Hf; discriminate|now exists t, rest].
  - intros ev Hp.
    pose proof (reachable_inv env _ (reachable_step env s ev Hr)) as H.
    destruct (prepared_chain_next env ev s Hp) as [_ Hc].
    unfold session_inv in H.
    destruct (conversation_chain (next_session env ev s)); [|contradiction].
    destruct (messages (next_session env ev s)) as [m|]; [|contradiction].
    destruct H as [_ _ [t [rest [Hf Ht]]] _].
    exists t, rest. now rewrite Hf.
Qed.

Lemma transcript_starts_with_assistant_witness :
  (exists t rest,
      [greeting; mkTurn "user" "hi"; mkTurn "assistant" "hello"] = t :: rest
      /\ role t = "assistant")
  /\ (exists t rest,
        messages (next_session Sample.env
                    (Sample.submit "and you" (Sample.fails "timeout"))
                    Sample.after_hi)
        = Some (t :: rest)
        /\ role t = "assistant").
Proof.
  destruct (transcript_starts_with_assistant Sample.env Sample.after_hi
              after_hi_reachable) as [A B].
  split.
  - apply (A [greeting; mkTurn "user" "hi"; mkTurn "assistant" "hello"]).
    reflexivity.
  - apply (B (Sample.submit "and you" (Sample.fails "timeout"))).
    vm_compute. discriminate.
Defined.

Lemma exchange_turns_roles xs t :
  In t (exchange_turns xs) -> role t = "user" \/ role t = "assistant".
Proof.
  induction xs as [|x xs IH]; cbn; [contradiction|].
  intros [<-|[<-|H]]; [now left|now right|now apply IH].
Qed.

(** C1. Every request a run of a reachable session sends to the
    endpoint is the system text, then the turns of the exchanges held in
    the chain's history, each a user turn followed by its assistant
    turn, then one user turn with the text submitted in this run; no
    other turn of the request has the role system. *)
Theorem gateway_request_shape :
  forall env s ev req,
    reachable env s ->
    In req (gateway_requests (run_trace env ev s)) ->
    exists c xs text,
      prepared_chain env s = Some c
      /\ chat_memory c = exchange_messages xs
      /\ user_input ev = Some text
      /\ req = mkTurn "system" SYSTEM_PROMPT
               :: exchange_turns xs ++ [mkTurn "user" text]
      /\ (forall t, In t (exchange_turns xs ++ [mkTurn "user" text]) ->
                    role t <> "system").
Proof.
  intros env s ev req Hr Hin.
  rewrite run_requests_spec in Hin.
  destruct (prepared_chain env s) as [c|] eqn:P; [|contradiction].
  destruct (submitted ev) as [text|] eqn:S; [|contradiction].
  destruct Hin as [<-|[]].
  destruct (prepared_inv env s c (reachable_inv env s Hr) P)
    as [_ [xs Hm] _ _].
  assert (U : user_input ev = Some text).
  { unfold submitted in S. destruct (truthy (user_input ev)); [exact S|discriminate]. }
  exists c, xs, text. repeat split; try assumption.
  - rewrite chain_request_unfold, Hm, exchange_turns_messages. reflexivity.
  - intros t Ht E. apply in_app_or in Ht. destruct Ht as [Ht|[<-|[]]].
    + apply exchange_turns_roles in Ht. rewrite E in Ht.
      destruct Ht; discriminate.
    + discriminate.
Qed.

Lemma gateway_request_shape_witness :
  exists c xs text,
    prepared_chain Sample.env Sample.after_hi = Some c
    /\ chat_memory c = exchange_messages xs
    /\ user_input (Sample.submit "how are you" (Sample.answers "fine"))
       = Some text
    /\ [mkTurn "system" SYSTEM_PROMPT; mkTurn "user" "hi";
        mkTurn "assistant" "hello"; mkTurn "user" "how are you"]
       = mkTurn "system" SYSTEM_PROMPT
         :: exchange_turns xs ++ [mkTurn "user" text]
    /\ (forall t, In t (exchange_turns xs ++ [mkTurn "user" text]) ->
                  role t <> "system").
Proof.
  apply (gateway_request_shape Sample.env Sample.after_hi
           (Sample.submit "how are you" (Sample.answers "fine"))).
  - exact after_hi_reachable.
  - rewrite run_requests_spec. left. reflexivity.
Defined.

(** C2, as stated, fails: on the opened page the transcript has one
    turn, the greeting, and the request for the first input has two
    turns, not three. *)
Lemma request_length_counterexample :
  reachable Sample.env Sample.opened
  /\ messages Sample.opened = Some [greeting]
  /\ gateway_requests
       (run_trace Sample.env (Sample.submit "hi" (Sample.answers "hello"))
          Sample.opened)
     = [[mkTurn "system" SYSTEM_PROMPT; mkTurn "user" "hi"]]
  /\ ~ (forall req,
          In req (gateway_requests
                    (run_trace Sample.env
                       (Sample.submit "hi" (Sample.answers "hello"))
                       Sample.opened)) ->
          length req = length (transcript Sample.opened) + 2).
Proof.
  split; [exact opened_reachable|].
  split; [reflexivity|].
  assert (R : gateway_requests
                (run_trace Sample.env
                   (Sample.submit "hi" (Sample.answers "hello")) Sample.opened)
              = [[mkTurn "system" SYSTEM_PROMPT; mkTurn "user" "hi"]]).
  { rewrite run_requests_spec. reflexivity. }
  split; [exact R|].
  intros H. rewrite R in H.
  specialize (H _ (or_introl eq_refl)). cbn in H. discriminate.
Qed.

(** C2, amended. Every request a run of a reachable session sends has
    the system turn first and the user turn with the submitted text
    last, and its length is the length of the chain's history plus 2;
    that is at most the length of the displayed transcript plus 1. *)
Theorem request_first_last_length :
  forall env s ev req,
    reachable env s ->
    In req (gateway_requests (run_trace env ev s)) ->
    exists c text,
      prepared_chain env s = Some c
      /\ user_input ev = Some text
      /\ hd_error req = Some (mkTurn "system" SYSTEM_PROMPT)
      /\ last req (mkTurn "system" SYSTEM_PROMPT) = mkTurn "user" text
      /\ length req = length (chat_memory c) + 2
      /\ length req <= length (transcript s) + 1.
Proof.
  intros env s ev req Hr Hin.
  rewrite run_requests_spec in Hin.
  destruct (prepared_chain env s) as [c|] eqn:P; [|contradiction].
  destruct (submitted ev) as [text|] eqn:S; [|contradiction].
  destruct Hin as [<-|[]].
  destruct (prepared_inv env s c (reachable_inv env s Hr) P) as [_ _ _ Hl].
  assert (U : user_input ev = Some text).
  { unfold submitted in S. destruct (truthy (user_input ev)); [exact S|discriminate]. }
  exists c, text.
  split; [reflexivity|]. split; [exact U|].
  split; [now rewrite chain_request_unfold|].
  split; [|split].
  - rewrite chain_request_unfold.
    change (mkTurn "system" SYSTEM_PROMPT
            :: map convert_message_to_dict (chat_memory c) ++ [mkTurn "user" text])
      with (([mkTurn "system" SYSTEM_PROMPT]
             ++ map convert_message_to_dict (chat_memory c))
            ++ [mkTurn "user" text]).
    apply last_last.
  - apply chain_request_length.
  - rewrite chain_request_length. lia.
Qed.

Lemma request_first_last_length_witness :
  exists c text,
    prepared_chain Sample.env Sample.after_hi = Some c
    /\ user_input (Sample.submit "how are you" (Sample.answers "fine"))
       = Some text
    /\ hd_error [mkTurn "system" SYSTEM_PROMPT; mkTurn "user" "hi";
                 mkTurn "assistant" "hello"; mkTurn "user" "how are you"]
       = Some (mkTurn "system" SYSTEM_PROMPT)
    /\ last [mkTurn "system" SYSTEM_PROMPT; mkTurn "user" "hi";
             mkTurn "assistant" "hello"; mkTurn "user" "how are you"]
            (mkTurn "system" SYSTEM_PROMPT)
       = mkTurn "user" text
    /\ length [mkTurn "system" SYSTEM_PROMPT; mkTurn "user" "hi";
               mkTurn "assistant" "hello"; mkTurn "user" "how are you"]
       = length (chat_memory c) + 2
    /\ length [mkTurn "system" SYSTEM_PROMPT; mkTurn "user" "hi";
               mkTurn "assistant" "hello"; mkTurn "user" "how are you"]
       <= length (transcript Sample.after_hi) + 1.
Proof.
  apply (request_first_last_length Sample.env Sample.after_hi
           (Sample.submit "how are you" (Sample.answers "fine"))).
  - exact after_hi_reachable.
  - rewrite run_requests_spec. left. reflexivity.
Defined.

Lemma submitted_nonempty ev text :
  user_input ev = Some text -> text <> EmptyString -> submitted ev = Some text.
Proof.
  intros U N. unfold submitted. rewrite U. cbn.
  destruct (String.eqb_spec text EmptyString); [contradiction|reflexivity].
Qed.

Lemma prepared_chain_step env ev s1 s2 :
  prepared_chain env s1 = prepared_chain env s2 ->
  prepared_chain env (next_session env ev s1)
  = prepared_chain env (next_session env ev s2).
Proof.
  intros E. rewrite !next_session_spec, <- E.
  destruct (prepared_chain env s1) as [c|] eqn:P; [|now rewrite P].
  destruct (clear_clicked ev); reflexivity.
Qed.

Lemma session_requests_same_chain env evs :
  forall s1 s2,
    prepared_chain env s1 = prepared_chain env s2 ->
    session_requests env evs s1 = session_requests env evs s2.
Proof.
  induction evs as [|ev evs IH]; intros s1 s2 E; [reflexivity|].
  cbn [session_requests]. rewrite !run_requests_spec, E.
  f_equal. apply IH. now apply prepared_chain_step.
Qed.

(** C3. When the endpoint raises for a submitted text, the handler
    ends normally with the user turn and the fixed apology turn added to
    the transcript, the run completes, and the next submitted text is
    handled as in any other run: its request is sent and its two turns
    are added. *)
Theorem gateway_error_appends_apology :
  forall env s ev c text exn,
    prepared_chain env s = Some c ->
    user_input ev = Some text ->
    text <> EmptyString ->
    clear_clicked ev = false ->
    gateway ev (chain_request c text) = Failed exn ->
    (forall t,
        handle_user_input (gateway ev) text
          (mkWorld (mkSession (Some c) (Some (transcript s))) t)
        = (Normal tt,
           mkWorld
             (mkSession (Some c)
                (Some (transcript s
                       ++ [mkTurn "user" text; mkTurn "assistant" error_message])))
             (t ++ [ChatMessage "user" user_avatar text; Spinner;
                    GatewayCall (model_name c) (chain_request c text);
                    StError ("An error occurred: " ++ exn)%string;
                    ChatMessage "assistant" assistant_avatar error_message])))
    /\ run_status env ev s = Completed
    /\ messages (next_session env ev s)
       = Some (transcript s
               ++ [mkTurn "user" text; mkTurn "assistant" error_message])
    /\ (forall ev' text',
          user_input ev' = Some text' ->
          text' <> EmptyString ->
          clear_clicked ev' = false ->
          run_status env ev' (next_session env ev s) = Completed
          /\ gateway_requests (run_trace env ev' (next_session env ev s))
             = [chain_request c text']
          /\ messages (next_session env ev' (next_session env ev s))
             = Some ((transcript s
                      ++ [mkTurn "user" text; mkTurn "assistant" error_message])
                     ++ [mkTurn "user" text';
                         mkTurn "assistant"
                           (exchange_reply (gateway ev') text' c)])).
Proof.
  intros env s ev c text exn P U N K F.
  pose proof (submitted_nonempty ev text U N) as S.
  pose proof (prepared_chain_loads env s c P) as L.
  assert (E : next_session env ev s
              = mkSession (Some c)
                  (Some (transcript s
                         ++ [mkTurn "user" text;
                             mkTurn "assistant" error_message]))).
  { rewrite next_session_spec, P, K.
    unfold answered_chain, answered_messages, exchange_chain, exchange_reply.
    rewrite S, F. reflexivity. }
  split; [|split; [|split]].
  - intros t. rewrite handle_user_input_spec.
    unfold exchange_chain, exchange_reply, exchange_trace. rewrite F.
    reflexivity.
  - rewrite run_status_spec, P, K. reflexivity.
  - now rewrite E.
  - intros ev' text' U' N' K'.
    pose proof (submitted_nonempty ev' text' U' N') as S'.
    rewrite E. split; [|split].
    + rewrite run_status_spec, (prepared_chain_some env _ _ L).
      now rewrite K'.
    + rewrite run_requests_spec, (prepared_chain_some env _ _ L).
      now rewrite S'.
    + rewrite next_session_spec, (prepared_chain_some env _ _ L).
      rewrite K'. unfold answered_messages. rewrite S'. reflexivity.
Qed.

Lemma gateway_error_appends_apology_witness :
  run_status Sample.env (Sample.submit "and you" (Sample.fails "timeout"))
    Sample.after_hi = Completed
  /\ messages (next_session Sample.env
                 (Sample.submit "and you" (Sample.fails "timeout"))
                 Sample.after_hi)
     = Some ([greeting; mkTurn "user" "hi"; mkTurn "assistant" "hello"]
             ++ [mkTurn "user" "and you"; mkTurn "assistant" error_message])
  /\ messages (next_session Sample.env
                 (Sample.submit "again" (Sample.answers "here"))
                 (next_session Sample.env
                    (Sample.submit "and you" (Sample.fails "timeout"))
                    Sample.after_hi))
     = Some (([greeting; mkTurn "user" "hi"; mkTurn "assistant" "hello"]
              ++ [mkTurn "user" "and you"; mkTurn "assistant" error_message])
             ++ [mkTurn "user" "again"; mkTurn "assistant" "here"]).
Proof.
  destruct (gateway_error_appends_apology Sample.env Sample.after_hi
              (Sample.submit "and you" (Sample.fails "timeout"))
              (mkChain "gsk-sample" DEFAULT_MODEL
                 [HumanMessage "hi"; AIMessage "hello"])
              "and you" "timeout")
    as [_ [A [B C]]].
  - reflexivity.
  - reflexivity.
  - discriminate.
  - reflexivity.
  - reflexivity.
  - split; [exact A|]. split; [exact B|].
    destruct (C (Sample.submit "again" (Sample.answers "here")) "again")
      as [_ [_ D]].
    + reflexivity.
    + discriminate.
    + reflexivity.
    + exact D.
Defined.

(** C9. When the endpoint raises for a submitted text, the call leaves
    the chain as it was: its history holds neither the submitted text nor
    the apology, while the displayed transcript gains both; and every
    later request of the session is the one the session would send had
    the failed exchange not taken place. *)
Theorem failed_exchange_not_in_history :
  forall env s ev c text exn,
    prepared_chain env s = Some c ->
    user_input ev = Some text ->
    text <> EmptyString ->
    clear_clicked ev = false ->
    gateway ev (chain_request c text) = Failed exn ->
    (forall m t,
        invoke (gateway ev) text (mkWorld (mkSession (Some c) m) t)
        = (Raised exn,
           mkWorld (mkSession (Some c) m)
                   (t ++ [GatewayCall (model_name c) (chain_request c text)])))
    /\ conversation_chain (next_session env ev s) = Some c
    /\ messages (next_session env ev s)
       = Some (transcript s
               ++ [mkTurn "user" text; mkTurn "assistant" error_message])
    /\ (forall text',
          chain_request c text'
          = mkTurn "system" SYSTEM_PROMPT
            :: map convert_message_to_dict (chat_memory c)
               ++ [mkTurn "user" text'])
    /\ (forall evs,
          session_requests env evs (next_session env ev s)
          = session_requests env evs s).
Proof.
  intros env s ev c text exn P U N K F.
  pose proof (submitted_nonempty ev text U N) as S.
  pose proof (prepared_chain_loads env s c P) as L.
  assert (E : next_session env ev s
              = mkSession (Some c)
                  (Some (transcript s
                         ++ [mkTurn "user" text;
                             mkTurn "assistant" error_message]))).
  { rewrite next_session_spec, P, K.
    unfold answered_chain, answered_messages, exchange_chain, exchange_reply.
    rewrite S, F. reflexivity. }
  split; [|split; [|split; [|split]]].
  - intros m t. rewrite invoke_spec, F. reflexivity.
  - now rewrite E.
  - now rewrite E.
  - intros text'. apply chain_request_unfold.
  - intros evs. apply session_requests_same_chain.
    now rewrite E, P, (prepared_chain_some env _ _ L).
Qed.

Lemma failed_exchange_not_in_history_witness :
  conversation_chain
    (next_session Sample.env (Sample.submit "and you" (Sample.fails "timeout"))
       Sample.after_hi)
  = Some (mkChain "gsk-sample" DEFAULT_MODEL
            [HumanMessage "hi"; AIMessage "hello"])
  /\ session_requests Sample.env
       [Sample.submit "again" (Sample.answers "here")]
       (next_session Sample.env
          (Sample.submit "and you" (Sample.fails "timeout")) Sample.after_hi)
     = session_requests Sample.env
         [Sample.submit "again" (Sample.answers "here")] Sample.after_hi.
Proof.
  destruct (failed_exchange_not_in_history Sample.env Sample.after_hi
              (Sample.submit "and you" (Sample.fails "timeout"))
              (mkChain "gsk-sample" DEFAULT_MODEL
                 [HumanMessage "hi"; AIMessage "hello"])
              "and you" "timeout")
    as [_ [A [_ [_ B]]]].
  - reflexivity.
  - reflexivity.
  - discriminate.
  - reflexivity.
  - reflexivity.
  - split; [exact A|]. apply B.
Defined.

(** ** Further properties of the script *)

Lemma Subseq_refl {A} (l : list A) : Subseq l l.
Proof. induction l; now constructor. Qed.

Lemma Subseq_nil_l {A} (l : list A) : Subseq [] l.
Proof. induction l; now constructor. Qed.

Lemma Subseq_app {A} (l1 l2 k1 k2 : list A) :
  Subseq l1 l2 -> Subseq k1 k2 -> Subseq (l1 ++ k1) (l2 ++ k2).
Proof.
  intros H K. induction H; cbn; [exact K| |]; now constructor.
Qed.

Lemma Subseq_flat_map {A B} (f : A -> list B) l1 l2 :
  Subseq l1 l2 -> Subseq (flat_map f l1) (flat_map f l2).
Proof.
  induction 1 as [|x l1 l2 _ IH|x l1 l2 _ IH]; cbn.
  - constructor.
  - change (flat_map f l1) with ([] ++ flat_map f l1).
    apply Subseq_app; [apply Subseq_nil_l|exact IH].
  - apply Subseq_app; [apply Subseq_refl|exact IH].
Qed.

Lemma exchange_turns_snoc ys u a :
  exchange_turns (ys ++ [(u, a)])
  = exchange_turns ys ++ [mkTurn "user" u; mkTurn "assistant" a].
Proof.
  unfold exchange_turns. rewrite flat_map_app. cbn. reflexivity.
Qed.

Lemma exchange_turns_length ys : length (exchange_turns ys) = 2 * length ys.
Proof.
  induction ys as [|y ys IH]; [reflexivity|].
  change (exchange_turns (y :: ys))
    with (mkTurn "user" (fst y) :: mkTurn "assistant" (snd y)
          :: exchange_turns ys).
  cbn [length]. rewrite IH. lia.
Qed.

Lemma init_result_value env c0 :
  init_result env = Some c0 ->
  c0 = mkChain (key_text (groq_api_key env)) DEFAULT_MODEL [].
Proof.
  unfold init_result.
  destruct (truthy (groq_api_key env)); [|discriminate].
  destruct (chatgroq_raises env (key_text (groq_api_key env))); [discriminate|].
  intros H. now injection H as <-.
Qed.

Lemma fresh_history env g :
  g = greeting \/ g = cleared_greeting ->
  history_inv env (mkChain (key_text (groq_api_key env)) DEFAULT_MODEL []) [g].
Proof.
  intros Hg. split; [reflexivity|reflexivity|].
  exists g, [], []. repeat split; [exact Hg|constructor].
Qed.

Lemma prepared_history env s c :
  session_history env s -> prepared_chain env s = Some c ->
  history_inv env c (transcript s).
Proof.
  intros Hs P.
  rewrite (prepared_chain_initialized env s (prepared_chain_loads env s c P))
    in P.
  revert Hs P. unfold session_history, initialized_chain, transcript.
  destruct s as [[c1|] [m|]]; cbn [conversation_chain messages];
    try contradiction.
  - intros H E. now injection E as <-.
  - intros _ E. rewrite (init_result_value env c E).
    apply fresh_history. now left.
Qed.

Lemma answered_history env ev c m :
  history_inv env c m ->
  history_inv env (answered_chain ev c) (answered_messages ev c m).
Proof.
  intros [Hk Hm [g [xs [ys [Hs [Hg [Hx Hsub]]]]]]].
  unfold answered_chain, answered_messages, exchange_chain, exchange_reply.
  destruct (submitted ev) as [text|].
  - destruct (gateway ev (chain_request c text)) as [r|e]; split;
      try exact Hk; try exact Hm; cbn [chat_memory save_context].
    + exists g, (xs ++ [(text, r)]), (ys ++ [(text, r)]).
      rewrite exchange_messages_snoc, exchange_turns_snoc, Hx, Hs.
      repeat split; [exact Hg|].
      apply Subseq_app; [exact Hsub|apply Subseq_refl].
    + exists g, xs, (ys ++ [(text, error_message)]).
      rewrite exchange_turns_snoc, Hs.
      repeat split; [exact Hg|exact Hx|].
      rewrite <- (app_nil_r xs).
      apply Subseq_app; [exact Hsub|apply Subseq_nil_l].
  - split; [exact Hk|exact Hm|]. now exists g, xs, ys.
Qed.

Lemma next_session_history env ev s :
  session_inv env s -> session_history env s ->
  session_history env (next_session env ev s).
Proof.
  intros Hi H. rewrite next_session_spec.
  destruct (prepared_chain env s) as [c|] eqn:P; [|exact H].
  pose proof (prepared_history env s c H P) as R.
  destruct (clear_clicked ev).
  - unfold session_history; cbn [conversation_chain messages].
    destruct (init_result env) as [c0|] eqn:E.
    + rewrite (init_result_value env c0 E). apply fresh_history. now right.
    + destruct (prepared_inv env s c Hi P) as [Hn _ _ _]. contradiction.
  - exact (answered_history env ev c _ R).
Qed.

Lemma reachable_history env s : reachable env s -> session_history env s.
Proof.
  induction 1 as [|s ev Hr IH]; [exact I|].
  apply next_session_history; [now apply reachable_inv|exact IH].
Qed.

Lemma reachable_ready env s c :
  reachable env s -> conversation_chain s = Some c ->
  exists m, messages s = Some m /\ ready_inv env c m /\ history_inv env c m.
Proof.
  intros Hr Hc.
  pose proof (reachable_inv env s Hr) as H1.
  pose proof (reachable_history env s Hr) as H2.
  unfold session_inv in H1. unfold session_history in H2.
  rewrite Hc in H1, H2.
  destruct (messages s) as [m|]; [|contradiction].
  now exists m.
Qed.

Lemma truthy_key_text o : truthy o = true -> o = Some (key_text o).
Proof. destruct o; [reflexivity|discriminate]. Qed.

Lemma truthy_nonempty o : truthy o = true -> key_text o <> EmptyString.
Proof.
  destruct o as [k|]; [|discriminate]. cbn.
  destruct (String.eqb_spec k EmptyString); [discriminate|]. now intros _.
Qed.

Lemma nonempty_truthy k : k <> EmptyString -> truthy (Some k) = true.
Proof.
  intros N. cbn. now destruct (String.eqb_spec k EmptyString).
Qed.

Lemma groq_api_key_sources env key :
  key <> EmptyString ->
  (groq_api_key env = Some key
   <-> getenv_key env = Some key
       \/ (truthy (getenv_key env) = false /\ secrets_key env = Some key)).
Proof.
  intros N. unfold groq_api_key.
  destruct (truthy (getenv_key env)) eqn:T; split.
  - now left.
  - intros [H|[H _]]; [exact H|discriminate].
  - intros H. right. now split.
  - intros [H|[_ H]]; [|exact H].
    rewrite H, (nonempty_truthy key N) in T. discriminate.
Qed.

Lemma init_result_some_iff env :
  init_result env <> None
  <-> exists key,
        key <> EmptyString
        /\ groq_api_key env = Some key
        /\ chatgroq_raises env key = None.
Proof.
  unfold init_result. split.
  - destruct (truthy (groq_api_key env)) eqn:T; [|now intros []].
    destruct (chatgroq_raises env (key_text (groq_api_key env))) eqn:C;
      [now intros []|].
    intros _. exists (key_text (groq_api_key env)).
    split; [now apply truthy_nonempty|].
    split; [now apply truthy_key_text|exact C].
  - intros [key [N [K C]]]. rewrite K. cbn [key_text].
    rewrite (nonempty_truthy key N), C. discriminate.
Qed.

Lemma key_lookup_error_iff env exn :
  key_lookup_error env = Some exn
  <-> truthy (getenv_key env) = false /\ secrets_lookup env = SecretsError exn.
Proof.
  unfold key_lookup_error.
  destruct (truthy (getenv_key env)); split.
  - discriminate.
  - intros [H _]. discriminate.
  - destruct (secrets_lookup env); try discriminate.
    intros H. injection H as <-. now split.
  - intros [_ ->]. reflexivity.
Qed.

Lemma prepared_chain_empty env :
  prepared_chain env empty_session
  = match key_lookup_error env with
    | Some _ => None
    | None => init_result env
    end.
Proof. reflexivity. Qed.

(** X1. A new session gets past the initialisation exactly when a
    non-empty key is found, in the environment or, the environment
    having none, in the secrets, and the client is built for it;
    otherwise the session state stays empty, and the run is halted or,
    when the lookup in the secrets lets its exception through, ends with
    that exception. *)
Theorem startup_completes_iff_key :
  forall env ev,
    (run_status env ev empty_session = Completed
     <-> exists key,
           key <> EmptyString
           /\ (getenv_key env = Some key
               \/ (truthy (getenv_key env) = false
                   /\ secrets_key env = Some key))
           /\ chatgroq_raises env key = None)
    /\ (run_status env ev empty_session = Completed
        \/ ((run_status env ev empty_session = Halted
             \/ exists exn,
                  truthy (getenv_key env) = false
                  /\ secrets_lookup env = SecretsError exn
                  /\ run_status env ev empty_session = Crashed exn)
            /\ next_session env ev empty_session = empty_session)).
Proof.
  intros env ev.
  assert (S : run_status env ev empty_session = Completed
              <-> init_result env <> None).
  { rewrite run_status_spec, prepared_chain_empty.
    destruct (key_lookup_error env) as [exn|] eqn:L.
    - split; [discriminate|].
      intros H. now rewrite (init_result_loads env H) in L.
    - destruct (init_result env) as [c0|]; split;
        try discriminate; try (now intros []).
      intros _. now destruct (clear_clicked ev). }
  split.
  - rewrite S, init_result_some_iff. split.
    + intros [key [N [K C]]]. exists key.
      split; [exact N|]. split; [now apply groq_api_key_sources|exact C].
    + intros [key [N [K C]]]. exists key.
      split; [exact N|]. split; [now apply groq_api_key_sources|exact C].
  - rewrite run_status_spec, next_session_spec, prepared_chain_empty.
    destruct (key_lookup_error env) as [exn|] eqn:L.
    + right. split; [|reflexivity]. right. exists exn.
      apply key_lookup_error_iff in L. destruct L as [G E].
      now repeat split.
    + destruct (init_result env) as [c0|];
        [left|right; split; [now left|reflexivity]].
      now destruct (clear_clicked ev).
Qed.

(** X2. When the session has no chain yet, a non-empty key is
    configured and building the client raises, the run shows the
    initialisation error with the exception's text and halts: the session
    state is as before and nothing after the initialisation is drawn. *)
Theorem client_error_halts :
  forall env ev s exn,
    conversation_chain s = None ->
    truthy (groq_api_key env) = true ->
    chatgroq_raises env (key_text (groq_api_key env)) = Some exn ->
    run_script env ev s
    = (Halted,
       mkWorld s [PageHeader;
                  StError ("Error initializing LangChain: " ++ exn)%string])
    /\ gateway_requests (run_trace env ev s) = [].
Proof.
  intros env ev s exn Hc Hk He.
  assert (R : run_script env ev s
              = (Halted,
                 mkWorld s [PageHeader;
                            StError ("Error initializing LangChain: " ++ exn)%string])).
  { rewrite run_script_spec, (truthy_key_loads env Hk).
    unfold initialized_chain, init_result, init_error.
    rewrite Hc, Hk, He. reflexivity. }
  split; [exact R|]. unfold run_trace. rewrite R. reflexivity.
Qed.

Lemma client_error_halts_witness :
  run_script SampleConfig.env_broken_client
    (Sample.submit "hi" (Sample.answers "hello")) empty_session
  = (Halted,
     mkWorld empty_session
       [PageHeader;
        StError "Error initializing LangChain: invalid client options"])
  /\ gateway_requests
       (run_trace SampleConfig.env_broken_client
          (Sample.submit "hi" (Sample.answers "hello")) empty_session)
     = [].
Proof.
  apply (client_error_halts SampleConfig.env_broken_client
           (Sample.submit "hi" (Sample.answers "hello")) empty_session
           "invalid client options").
  - reflexivity.
  - reflexivity.
  - reflexivity.
Defined.

(** X3. The chain of a session is built for the default model and for
    the configured key, and keeps both through every run: the key of the
    environment when that is not empty, else the key of the secrets. *)
Theorem chain_uses_configured_key :
  forall env s c,
    reachable env s ->
    conversation_chain s = Some c ->
    model_name c = DEFAULT_MODEL
    /\ groq_api_key_of c <> EmptyString
    /\ (truthy (getenv_key env) = true ->
        getenv_key env = Some (groq_api_key_of c))
    /\ (truthy (getenv_key env) = false ->
        secrets_key env = Some (groq_api_key_of c)).
Proof.
  intros env s c Hr Hc.
  destruct (reachable_ready env s c Hr Hc) as [m [_ [[Hi _ _ _] [Hk Hm _]]]].
  assert (T : truthy (groq_api_key env) = true).
  { unfold init_result in Hi.
    destruct (truthy (groq_api_key env)); [reflexivity|now elim Hi]. }
  split; [exact Hm|]. rewrite Hk.
  split; [now apply truthy_nonempty|].
  pose proof (truthy_key_text _ T) as K.
  unfold groq_api_key in K |- *.
  split; intros G; rewrite G in K |- *; exact K.
Qed.

Lemma chain_uses_configured_key_witness :
  model_name (mkChain "gsk-secret" DEFAULT_MODEL []) = DEFAULT_MODEL
  /\ groq_api_key_of (mkChain "gsk-secret" DEFAULT_MODEL []) <> EmptyString
  /\ secrets_key SampleConfig.env_secrets
     = Some (groq_api_key_of (mkChain "gsk-secret" DEFAULT_MODEL []))
  /\ getenv_key SampleConfig.env_both
     = Some (groq_api_key_of (mkChain "gsk-env" DEFAULT_MODEL [])).
Proof.
  destruct (chain_uses_configured_key SampleConfig.env_secrets
              (next_session SampleConfig.env_secrets Sample.page_load empty_session)
              (mkChain "gsk-secret" DEFAULT_MODEL []))
    as [A [B [_ D]]].
  - apply reachable_step, reachable_empty.
  - reflexivity.
  - destruct (chain_uses_configured_key SampleConfig.env_both
                (next_session SampleConfig.env_both Sample.page_load empty_session)
                (mkChain "gsk-env" DEFAULT_MODEL []))
      as [_ [_ [E _]]].
    + apply reachable_step, reachable_empty.
    + reflexivity.
    + split; [exact A|]. split; [exact B|].
      split; [apply D; reflexivity|apply E; reflexivity].
Defined.

(** X4. A run in which no text was submitted, or the empty text, and
    the button was not clicked, on a session that has its chain and its
    transcript, draws the page and leaves the session state as it was,
    provided the lookup of the key at lines 13-21 lets no exception
    through; the chat model is not called. *)
Theorem idle_run_changes_nothing :
  forall env ev s c m,
    key_lookup_error env = None ->
    conversation_chain s = Some c ->
    messages s = Some m ->
    truthy (user_input ev) = false ->
    clear_clicked ev = false ->
    run_script env ev s
    = (Completed,
       mkWorld s ([PageHeader] ++ map draw m
                  ++ [ChatInput; SidebarButton; model_info]))
    /\ next_session env ev s = s
    /\ gateway_requests (run_trace env ev s) = [].
Proof.
  intros env ev s c m Hl Hc Hm Hu Hk.
  assert (R : run_script env ev s
              = (Completed,
                 mkWorld s ([PageHeader] ++ map draw m
                            ++ [ChatInput; SidebarButton; model_info]))).
  { rewrite run_script_spec, Hl. unfold initialized_chain, transcript.
    rewrite Hc, Hm. unfold run_ready. rewrite Hk.
    unfold page_trace, answered_chain, answered_messages, answered_trace,
      submitted.
    rewrite Hu. destruct s as [sc sm]. cbn in Hc, Hm. subst sc sm.
    cbn [app]. rewrite <- !app_assoc. reflexivity. }
  split; [exact R|].
  split.
  - unfold next_session. now rewrite R.
  - rewrite run_requests_spec. unfold submitted. rewrite Hu.
    now destruct (prepared_chain env s).
Qed.

Lemma idle_run_changes_nothing_witness :
  next_session Sample.env (mkInteraction (Some EmptyString) false (Sample.answers "x"))
    Sample.after_hi
  = Sample.after_hi
  /\ gateway_requests
       (run_trace Sample.env
          (mkInteraction (Some EmptyString) false (Sample.answers "x"))
          Sample.after_hi)
     = [].
Proof.
  destruct (idle_run_changes_nothing Sample.env
              (mkInteraction (Some EmptyString) false (Sample.answers "x"))
              Sample.after_hi
              (mkChain "gsk-sample" DEFAULT_MODEL
                 [HumanMessage "hi"; AIMessage "hello"])
              [greeting; mkTurn "user" "hi"; mkTurn "assistant" "hello"])
    as [_ [A B]].
  - reflexivity.
  - reflexivity.
  - reflexivity.
  - reflexivity.
  - reflexivity.
  - split; [exact A|exact B].
Defined.

Lemma chain_request_after_exchange c text r text' :
  chain_request (save_context c text r) text'
  = chain_request c text ++ [mkTurn "assistant" r; mkTurn "user" text'].
Proof.
  rewrite !chain_request_unfold. cbn [save_context chat_memory].
  rewrite map_app. cbn [map convert_message_to_dict app].
  rewrite <- !app_assoc. reflexivity.
Qed.

(** X5. When the endpoint answers a submitted text, the transcript
    gains the user turn and an assistant turn with the answer as it is,
    the chain's history gains the same two messages, and the request for
    the next text is this request followed by the answer and the new
    text. *)
Theorem answered_exchange_is_recorded :
  forall env s ev c text reply,
    prepared_chain env s = Some c ->
    user_input ev = Some text ->
    text <> EmptyString ->
    clear_clicked ev = false ->
    gateway ev (chain_request c text) = Generated reply ->
    run_status env ev s = Completed
    /\ next_session env ev s
       = mkSession
           (Some (mkChain (groq_api_key_of c) (model_name c)
                    (chat_memory c ++ [HumanMessage text; AIMessage reply])))
           (Some (transcript s
                  ++ [mkTurn "user" text; mkTurn "assistant" reply]))
    /\ (forall ev' text',
          user_input ev' = Some text' ->
          text' <> EmptyString ->
          gateway_requests (run_trace env ev' (next_session env ev s))
          = [chain_request c text
             ++ [mkTurn "assistant" reply; mkTurn "user" text']]).
Proof.
  intros env s ev c text reply P U N K G.
  pose proof (submitted_nonempty ev text U N) as S.
  pose proof (prepared_chain_loads env s c P) as L.
  assert (E : next_session env ev s
              = mkSession (Some (save_context c text reply))
                  (Some (transcript s
                         ++ [mkTurn "user" text; mkTurn "assistant" reply]))).
  { rewrite next_session_spec, P, K.
    unfold answered_chain, answered_messages, exchange_chain, exchange_reply.
    rewrite S, G. reflexivity. }
  split; [rewrite run_status_spec, P, K; reflexivity|].
  split; [exact E|].
  intros ev' text' U' N'.
  rewrite E, run_requests_spec, (prepared_chain_some env _ _ L).
  rewrite (submitted_nonempty ev' text' U' N').
  now rewrite chain_request_after_exchange.
Qed.

Lemma answered_exchange_is_recorded_witness :
  next_session Sample.env (Sample.submit "and you" (Sample.answers EmptyString))
    Sample.after_hi
  = mkSession
      (Some (mkChain "gsk-sample" DEFAULT_MODEL
               ([HumanMessage "hi"; AIMessage "hello"]
                ++ [HumanMessage "and you"; AIMessage EmptyString])))
      (Some ([greeting; mkTurn "user" "hi"; mkTurn "assistant" "hello"]
             ++ [mkTurn "user" "and you"; mkTurn "assistant" EmptyString]))
  /\ gateway_requests
       (run_trace Sample.env (Sample.submit "bye" (Sample.fails "timeout"))
          (next_session Sample.env (Sample.submit "and you" (Sample.answers EmptyString))
             Sample.after_hi))
     = [[mkTurn "system" SYSTEM_PROMPT; mkTurn "user" "hi";
         mkTurn "assistant" "hello"; mkTurn "user" "and you"]
        ++ [mkTurn "assistant" EmptyString; mkTurn "user" "bye"]].
Proof.
  destruct (answered_exchange_is_recorded Sample.env Sample.after_hi
              (Sample.submit "and you" (Sample.answers EmptyString))
              (mkChain "gsk-sample" DEFAULT_MODEL
                 [HumanMessage "hi"; AIMessage "hello"])
              "and you" EmptyString)
    as [_ [A B]].
  - reflexivity.
  - reflexivity.
  - discriminate.
  - reflexivity.
  - reflexivity.
  - split; [exact A|].
    apply (B (Sample.submit "bye" (Sample.fails "timeout")) "bye").
    + reflexivity.
    + discriminate.
Defined.

(** X6. After a run in which the clear button was clicked, the chain
    is a new one with an empty history: the request for the next
    submitted text is the system text and that text alone, whatever was
    exchanged before. *)
Theorem clear_forgets_history :
  forall env s ev,
    reachable env s ->
    prepared_chain env s <> None ->
    clear_clicked ev = true ->
    conversation_chain (next_session env ev s)
    = Some (mkChain (key_text (groq_api_key env)) DEFAULT_MODEL [])
    /\ (forall ev' text,
          user_input ev' = Some text ->
          text <> EmptyString ->
          gateway_requests (run_trace env ev' (next_session env ev s))
          = [[mkTurn "system" SYSTEM_PROMPT; mkTurn "user" text]]).
Proof.
  intros env s ev Hr Hp Hc.
  assert (E : next_session env ev s
              = mkSession
                  (Some (mkChain (key_text (groq_api_key env)) DEFAULT_MODEL []))
                  (Some [cleared_greeting])).
  { rewrite next_session_spec.
    destruct (prepared_chain env s) as [c|] eqn:P; [|contradiction].
    destruct (prepared_inv env s c (reachable_inv env s Hr) P) as [Hi _ _ _].
    rewrite Hc. destruct (init_result env) as [c0|] eqn:I; [|contradiction].
    now rewrite (init_result_value env c0 I). }
  assert (L : key_lookup_error env = None).
  { destruct (prepared_chain env s) as [c|] eqn:P; [|contradiction].
    exact (prepared_chain_loads env s c P). }
  rewrite E. split; [reflexivity|].
  intros ev' text U N.
  rewrite run_requests_spec, (prepared_chain_some env _ _ L).
  now rewrite (submitted_nonempty ev' text U N).
Qed.

Lemma clear_forgets_history_witness :
  conversation_chain (next_session Sample.env Sample.click_clear Sample.after_hi)
  = Some (mkChain (key_text (groq_api_key Sample.env)) DEFAULT_MODEL [])
  /\ gateway_requests
       (run_trace Sample.env (Sample.submit "hi again" (Sample.answers "hello"))
          (next_session Sample.env Sample.click_clear Sample.after_hi))
     = [[mkTurn "system" SYSTEM_PROMPT; mkTurn "user" "hi again"]].
Proof.
  destruct (clear_forgets_history Sample.env Sample.after_hi Sample.click_clear)
    as [A B].
  - exact after_hi_reachable.
  - vm_compute. discriminate.
  - reflexivity.
  - split; [exact A|].
    apply (B (Sample.submit "hi again" (Sample.answers "hello")) "hi again").
    + reflexivity.
    + discriminate.
Defined.

Lemma exchange_turns_odd g ys :
  Nat.odd (length (g :: exchange_turns ys)) = true.
Proof.
  cbn [length]. rewrite exchange_turns_length, Nat.odd_succ.
  rewrite Nat.even_mul. reflexivity.
Qed.

(** X7. The transcript of every session state that is reached is one
    greeting, the first one or the one of the clear button, followed by
    whole exchanges, each a user turn and the assistant turn that
    answers it: its length is odd and no turn has the role system. *)
Theorem transcript_is_greeting_then_exchanges :
  forall env s m,
    reachable env s ->
    messages s = Some m ->
    (exists g ys,
        m = g :: exchange_turns ys
        /\ (g = greeting \/ g = cleared_greeting))
    /\ Nat.odd (length m) = true
    /\ (forall t, In t m -> role t = "user" \/ role t = "assistant").
Proof.
  intros env s m Hr Hm.
  pose proof (reachable_history env s Hr) as H.
  unfold session_history in H. rewrite Hm in H.
  destruct (conversation_chain s) as [c|]; [|contradiction].
  destruct H as [_ _ [g [xs [ys [Hs [Hg _]]]]]].
  split; [now exists g, ys|]. rewrite Hs.
  split; [apply exchange_turns_odd|].
  intros t [<-|Ht].
  - right. now destruct Hg as [->| ->].
  - now apply exchange_turns_roles in Ht.
Qed.

Lemma transcript_is_greeting_then_exchanges_witness :
  (exists g ys,
      [greeting; mkTurn "user" "hi"; mkTurn "assistant" "hello"]
      = g :: exchange_turns ys
      /\ (g = greeting \/ g = cleared_greeting))
  /\ Nat.odd (length [greeting; mkTurn "user" "hi"; mkTurn "assistant" "hello"])
     = true
  /\ (forall t,
        In t [greeting; mkTurn "user" "hi"; mkTurn "assistant" "hello"] ->
        role t = "user" \/ role t = "assistant").
Proof.
  apply (transcript_is_greeting_then_exchanges Sample.env Sample.after_hi).
  - exact after_hi_reachable.
  - reflexivity.
Defined.

(** X8. In every session state that is reached, the history the chain
    sends with its requests is a part of what the transcript shows
    after its greeting, in the same order: no turn is sent as history
    that is not on the page. *)
Theorem history_is_part_of_transcript :
  forall env s c m,
    reachable env s ->
    conversation_chain s = Some c ->
    messages s = Some m ->
    Subseq (map convert_message_to_dict (chat_memory c)) (tl m)
    /\ (forall text,
          exists history,
            chain_request c text
            = mkTurn "system" SYSTEM_PROMPT :: history ++ [mkTurn "user" text]
            /\ Subseq history (tl m)).
Proof.
  intros env s c m Hr Hc Hm.
  pose proof (reachable_history env s Hr) as H.
  unfold session_history in H. rewrite Hc, Hm in H.
  destruct H as [_ _ [g [xs [ys [Hs [_ [Hx Hsub]]]]]]].
  assert (S : Subseq (map convert_message_to_dict (chat_memory c)) (tl m)).
  { rewrite Hx, exchange_turns_messages, Hs. cbn [tl].
    now apply Subseq_flat_map. }
  split; [exact S|].
  intros text. exists (map convert_message_to_dict (chat_memory c)).
  split; [apply chain_request_unfold|exact S].
Qed.

Lemma history_is_part_of_transcript_witness :
  Subseq
    (map convert_message_to_dict [HumanMessage "hi"; AIMessage "hello"])
    (tl [greeting; mkTurn "user" "hi"; mkTurn "assistant" "hello";
         mkTurn "user" "and you"; mkTurn "assistant" error_message]).
Proof.
  apply (history_is_part_of_transcript Sample.env
           (next_session Sample.env
              (Sample.submit "and you" (Sample.fails "timeout")) Sample.after_hi)
           (mkChain "gsk-sample" DEFAULT_MODEL
              [HumanMessage "hi"; AIMessage "hello"])
           [greeting; mkTurn "user" "hi"; mkTurn "assistant" "hello";
            mkTurn "user" "and you"; mkTurn "assistant" error_message]).
  - apply reachable_step, after_hi_reachable.
  - reflexivity.
  - reflexivity.
Defined.

(** X9. A run calls the chain ([conversation_chain.invoke]) at most
    once: not at all when no text or the empty text was submitted, and
    exactly once, with the message list of the chain for the submitted
    text, when a text was submitted and the run gets to the handler,
    whether the call answers or raises: the script does not call the
    chain again after a failure.  Attempts the client repeats inside
    one call are not counted here. *)
Theorem at_most_one_chain_call_per_run :
  forall env ev s,
    length (gateway_requests (run_trace env ev s)) <= 1
    /\ (truthy (user_input ev) = false ->
        gateway_requests (run_trace env ev s) = [])
    /\ (forall c text,
          prepared_chain env s = Some c ->
          user_input ev = Some text ->
          text <> EmptyString ->
          gateway_requests (run_trace env ev s) = [chain_request c text]).
Proof.
  intros env ev s. rewrite run_requests_spec.
  split; [|split].
  - destruct (prepared_chain env s); [destruct (submitted ev)|]; cbn; lia.
  - intros Hu. unfold submitted. rewrite Hu.
    now destruct (prepared_chain env s).
  - intros c text P U N. now rewrite P, (submitted_nonempty ev text U N).
Qed.

Lemma at_most_one_chain_call_per_run_witness :
  gateway_requests (run_trace Sample.env Sample.page_load Sample.after_hi) = []
  /\ gateway_requests
       (run_trace Sample.env (Sample.submit "and you" (Sample.fails "timeout"))
          Sample.after_hi)
     = [chain_request
          (mkChain "gsk-sample" DEFAULT_MODEL
             [HumanMessage "hi"; AIMessage "hello"])
          "and you"].
Proof.
  split.
  - destruct (at_most_one_chain_call_per_run Sample.env Sample.page_load
                Sample.after_hi) as [_ [A _]].
    apply A. reflexivity.
  - destruct (at_most_one_chain_call_per_run Sample.env
                (Sample.submit "and you" (Sample.fails "timeout"))
                Sample.after_hi) as [_ [_ B]].
    apply B.
    + reflexivity.
    + reflexivity.
    + discriminate.
Defined.

(** X10. The one exception that can leave the script is the one the
    lookup in [st.secrets] raises at line 19 when the environment has no
    key and the lookup fails with something else than [KeyError]: a run
    ends with an exception exactly then, and with that exception.  And
    once a session has its chain, every later run under the same
    configuration completes, whatever is submitted or clicked and
    whatever the chat model does, and the session keeps a chain and a
    transcript. *)
Theorem opened_session_always_completes :
  forall env ev s,
    (forall exn,
        run_status env ev s = Crashed exn
        <-> truthy (getenv_key env) = false
            /\ secrets_lookup env = SecretsError exn)
    /\ (reachable env s ->
        conversation_chain s <> None ->
        run_status env ev s = Completed
        /\ conversation_chain (next_session env ev s) <> None
        /\ messages (next_session env ev s) <> None).
Proof.
  intros env ev s. split.
  - intros exn. rewrite <- key_lookup_error_iff, run_status_spec.
    destruct (prepared_chain env s) as [c|] eqn:P.
    + rewrite (prepared_chain_loads env s c P).
      destruct (clear_clicked ev); [destruct (init_result env)|];
        split; discriminate.
    + destruct (key_lookup_error env) as [e|]; split;
        try discriminate; intros H; now injection H as <-.
  - intros Hr Hc.
    destruct (conversation_chain s) as [c|] eqn:C; [|contradiction].
    destruct (reachable_ready env s c Hr C) as [m [_ [[Hi _ _ _] _]]].
    pose proof (init_result_loads env Hi) as L.
    assert (P : prepared_chain env s = Some c).
    { rewrite (prepared_chain_initialized env s L).
      unfold initialized_chain. now rewrite C. }
    rewrite run_status_spec, next_session_spec, P.
    destruct (clear_clicked ev); [destruct (init_result env); [|contradiction]|];
      repeat split; discriminate.
Qed.

Lemma opened_session_always_completes_witness :
  (run_status SampleConfig.env_without_secrets_file Sample.page_load
     empty_session
   = Crashed "StreamlitSecretNotFoundError: No secrets found.")
  /\ run_status Sample.env (Sample.submit "and you" (Sample.fails "timeout"))
       Sample.after_hi = Completed
  /\ conversation_chain
       (next_session Sample.env
          (Sample.submit "and you" (Sample.fails "timeout")) Sample.after_hi)
     <> None
  /\ messages
       (next_session Sample.env
          (Sample.submit "and you" (Sample.fails "timeout")) Sample.after_hi)
     <> None.
Proof.
  split.
  - destruct (opened_session_always_completes
                SampleConfig.env_without_secrets_file Sample.page_load
                empty_session) as [A _].
    apply A. split; reflexivity.
  - destruct (opened_session_always_completes Sample.env
                (Sample.submit "and you" (Sample.fails "timeout"))
                Sample.after_hi) as [_ A].
    apply A.
    + exact after_hi_reachable.
    + vm_compute. discriminate.
Defined.

Lemma chat_messages_app t1 t2 :
  chat_messages (t1 ++ t2) = chat_messages t1 ++ chat_messages t2.
Proof. apply filter_app. Qed.

Lemma chat_messages_draw m : chat_messages (map draw m) = map draw m.
Proof.
  induction m as [|x m IH]; [reflexivity|].
  cbn [map]. unfold chat_messages in *. cbn [filter draw is_chat_message].
  now rewrite IH.
Qed.

Lemma chat_messages_exchange gw text c :
  chat_messages (exchange_trace gw text c)
  = map draw [mkTurn "user" text;
              mkTurn "assistant" (exchange_reply gw text c)].
Proof.
  unfold exchange_trace, exchange_reply.
  destruct (gw (chain_request c text)); reflexivity.
Qed.

(** X11. In a run without a click on the clear button, the chat
    messages drawn, those of the display loop and those of the handler,
    are the turns of the transcript the run leaves, one message a turn,
    in order, user turns with the user's avatar and the others with the
    assistant's. *)
Theorem page_shows_final_transcript :
  forall env ev s,
    prepared_chain env s <> None ->
    clear_clicked ev = false ->
    exists m',
      messages (next_session env ev s) = Some m'
      /\ chat_messages (run_trace env ev s) = map draw m'
      /\ (forall t,
            In t m' ->
            draw t = ChatMessage (role t)
                       (if role t =? "user" then "👤" else "🧠")
                       (content t)).
Proof.
  intros env ev s P K.
  destruct (prepared_chain env s) as [c|] eqn:E; [|contradiction].
  exists (answered_messages ev c (transcript s)).
  split; [now rewrite next_session_spec, E, K|].
  split; [|reflexivity].
  unfold run_trace. rewrite (run_script_prepared env ev s c E).
  unfold run_ready. rewrite K.
  cbn [snd trace]. unfold page_trace, answered_trace, answered_messages.
  rewrite !chat_messages_app, chat_messages_draw.
  destruct (submitted ev) as [text|].
  - rewrite chat_messages_exchange, map_app. cbn [chat_messages filter
      is_chat_message model_info app]. now rewrite !app_nil_r.
  - cbn [chat_messages filter is_chat_message model_info app].
    now rewrite !app_nil_r.
Qed.

Lemma page_shows_final_transcript_witness :
  exists m',
    messages (next_session Sample.env
                (Sample.submit "and you" (Sample.fails "timeout"))
                Sample.after_hi)
    = Some m'
    /\ chat_messages
         (run_trace Sample.env
            (Sample.submit "and you" (Sample.fails "timeout")) Sample.after_hi)
       = map draw m'
    /\ (forall t,
          In t m' ->
          draw t = ChatMessage (role t)
                     (if role t =? "user" then "👤" else "🧠")
                     (content t)).
Proof.
  apply (page_shows_final_transcript Sample.env
           (Sample.submit "and you" (Sample.fails "timeout")) Sample.after_hi).
  - vm_compute. discriminate.
  - reflexivity.
Defined.

Lemma exchange_messages_length xs :
  length (exchange_messages xs) = 2 * length xs.
Proof.
  induction xs as [|x xs IH]; [reflexivity|].
  change (exchange_messages (x :: xs))
    with (HumanMessage (fst x) :: AIMessage (snd x) :: exchange_messages xs).
  cbn [length]. rewrite IH. lia.
Qed.

Lemma run_submissions env xs :
  key_lookup_error env = None ->
  Forall (fun x => fst x <> EmptyString) xs ->
  forall c m,
    run_session env (submissions xs) (mkSession (Some c) (Some m))
    = mkSession
        (Some (mkChain (groq_api_key_of c) (model_name c)
                 (chat_memory c ++ exchange_messages xs)))
        (Some (m ++ exchange_turns xs)).
Proof.
  intros L.
  induction 1 as [|x xs Hx _ IH]; intros c m.
  - cbn. rewrite !app_nil_r. now destruct c.
  - change (run_session env (submissions (x :: xs))
              (mkSession (Some c) (Some m)))
      with (run_session env (submissions xs)
              (next_session env
                 (mkInteraction (Some (fst x)) false (answering (snd x)))
                 (mkSession (Some c) (Some m)))).
    rewrite next_session_spec, (prepared_chain_some env _ _ L).
    cbn [clear_clicked transcript messages].
    unfold answered_chain, answered_messages, exchange_chain, exchange_reply.
    rewrite (submitted_nonempty
               (mkInteraction (Some (fst x)) false (answering (snd x)))
               (fst x) eq_refl Hx).
    cbn [gateway answering]. rewrite IH.
    cbn [save_context groq_api_key_of model_name chat_memory].
    change (exchange_messages (x :: xs))
      with ([HumanMessage (fst x); AIMessage (snd x)] ++ exchange_messages xs).
    change (exchange_turns (x :: xs))
      with ([mkTurn "user" (fst x); mkTurn "assistant" (snd x)]
            ++ exchange_turns xs).
    now rewrite <- !app_assoc.
Qed.

(** X12. Exchanges that are answered pile up: after any number of
    them, the chain's history and the transcript hold all of them, in
    order, after what they held before, and the next request has two
    turns more for each of them; nothing is dropped or cut off.  The
    runs are those in which the lookup of the key at lines 13-21 lets no
    exception through. *)
Theorem answered_exchanges_accumulate :
  forall env xs c m,
    key_lookup_error env = None ->
    Forall (fun x => fst x <> EmptyString) xs ->
    run_session env (submissions xs) (mkSession (Some c) (Some m))
    = mkSession
        (Some (mkChain (groq_api_key_of c) (model_name c)
                 (chat_memory c ++ exchange_messages xs)))
        (Some (m ++ exchange_turns xs))
    /\ (forall ev text,
          user_input ev = Some text ->
          text <> EmptyString ->
          exists req,
            gateway_requests
              (run_trace env ev
                 (run_session env (submissions xs)
                    (mkSession (Some c) (Some m))))
            = [req]
            /\ length req = length (chat_memory c) + 2 * length xs + 2).
Proof.
  intros env xs c m L Hx.
  pose proof (run_submissions env xs L Hx c m) as R.
  split; [exact R|].
  intros ev text U N. rewrite R, run_requests_spec.
  rewrite (prepared_chain_some env _ _ L).
  rewrite (submitted_nonempty ev text U N).
  eexists. split; [reflexivity|].
  rewrite chain_request_length. cbn [chat_memory].
  rewrite length_app, exchange_messages_length. lia.
Qed.

Lemma answered_exchanges_accumulate_witness :
  run_session Sample.env
    (submissions [("one", "first"); ("two", "second")])
    (mkSession (Some (mkChain "gsk-sample" DEFAULT_MODEL [])) (Some [greeting]))
  = mkSession
      (Some (mkChain "gsk-sample" DEFAULT_MODEL
               ([] ++ exchange_messages [("one", "first"); ("two", "second")])))
      (Some ([greeting] ++ exchange_turns [("one", "first"); ("two", "second")]))
  /\ exists req,
       gateway_requests
         (run_trace Sample.env (Sample.submit "three" (Sample.fails "timeout"))
            (run_session Sample.env
               (submissions [("one", "first"); ("two", "second")])
               (mkSession (Some (mkChain "gsk-sample" DEFAULT_MODEL []))
                  (Some [greeting]))))
       = [req]
       /\ length req = 0 + 2 * 2 + 2.
Proof.
  destruct (answered_exchanges_accumulate Sample.env
              [("one", "first"); ("two", "second")]
              (mkChain "gsk-sample" DEFAULT_MODEL []) [greeting])
    as [A B].
  - reflexivity.
  - repeat constructor; discriminate.
  - split; [exact A|].
    apply (B (Sample.submit "three" (Sample.fails "timeout")) "three").
    + reflexivity.
    + discriminate.
Defined.

(** X13. The first run of a new session for which the chain is built,
    with nothing submitted and nothing clicked, leaves the new chain
    with an empty history and a transcript of the greeting alone, and
    draws the greeting with the assistant's avatar, the chat input and
    the sidebar. *)
Theorem first_run_shows_greeting :
  forall env ev,
    truthy (groq_api_key env) = true ->
    chatgroq_raises env (key_text (groq_api_key env)) = None ->
    truthy (user_input ev) = false ->
    clear_clicked ev = false ->
    run_script env ev empty_session
    = (Completed,
       mkWorld
         (mkSession
            (Some (mkChain (key_text (groq_api_key env)) DEFAULT_MODEL []))
            (Some [greeting]))
         [PageHeader;
          ChatMessage "assistant" "🧠"
            "Hello! I'm Mindful Echo. How are you feeling today? I'm here to listen without judgment.";
          ChatInput; SidebarButton;
          SidebarInfo "Using Model: llama3-8b-8192"]).
Proof.
  intros env ev Ht Hc Hu Hk.
  rewrite run_script_spec, (truthy_key_loads env Ht).
  cbn [initialized_chain empty_session conversation_chain transcript messages].
  unfold run_ready, init_result. rewrite Ht, Hc, Hk.
  unfold page_trace, answered_chain, answered_messages, answered_trace,
    submitted.
  rewrite Hu. reflexivity.
Qed.

Lemma first_run_shows_greeting_witness :
  run_script SampleConfig.env_secrets Sample.page_load empty_session
  = (Completed,
     mkWorld
       (mkSession
          (Some (mkChain (key_text (groq_api_key SampleConfig.env_secrets))
                   DEFAULT_MODEL []))
          (Some [greeting]))
       [PageHeader;
        ChatMessage "assistant" "🧠"
          "Hello! I'm Mindful Echo. How are you feeling today? I'm here to listen without judgment.";
        ChatInput; SidebarButton;
        SidebarInfo "Using Model: llama3-8b-8192"]).
Proof.
  apply (first_run_shows_greeting SampleConfig.env_secrets Sample.page_load).
  - reflexivity.
  - reflexivity.
  - reflexivity.
  - reflexivity.
Defined.
